(** * document-portal: the two RAG repair scripts

    A shallow embedding of [fix_rag_chain.py] and [improved_rag_debug.py].

    Both scripts are glue around library objects (LLM client, embedding
    model, document loader, text splitter, vector store, retriever).  The
    Python that the repository itself contains is embedded function by
    function; every library call is an explicit [Call] answered by an
    arbitrary external world, which may return a value or raise.  Standard
    output and the calls made are recorded, in order, in the run's trace. *)

From Stdlib Require Import String Ascii List ZArith Lia Bool.
From Stdlib Require Import DecimalString.
Import ListNotations.
Open Scope string_scope.
Set Warnings "-register-all".

(** ** Python values and the built-ins the scripts use *)

Module Py.

(** Characters of Python strings are modelled by [ascii]; literals of the
    source that hold other characters are kept as their UTF-8 bytes. *)
Definition nl : string := String "010"%char EmptyString.
Definition dq : string := String "034"%char EmptyString.

(** The values that occur as arguments and metadata: [VFloat] keeps a float
    literal as written (it is only passed on), [VRef] is a reference to a
    named class or function such as [PyPDFLoader] or [len]. *)
Inductive PyVal : Type :=
| VInt (n : Z)
| VFloat (literal : string)
| VStr (s : string)
| VRef (name : string)
| VList (items : list PyVal)
| VDict (items : list (string * PyVal)).

Definition Kwargs : Type := list (string * PyVal).

(** An exception object: its class name and [str(e)]. Only classes below
    [Exception] are modelled, which is what [except Exception] catches. *)
Record Exn : Type := mkExn { exn_class : string; exn_str : string }.

Inductive Result (A : Type) : Type :=
| Ok (a : A)
| Raise (e : Exn).
Arguments Ok {A} a.
Arguments Raise {A} e.

Definition str_of_nat (n : nat) : string :=
  NilZero.string_of_uint (Nat.to_uint n).

Definition str_of_Z (n : Z) : string :=
  NilZero.string_of_int (Z.to_int n).

(** [sep.join(parts)] *)
Fixpoint join (sep : string) (parts : list string) : string :=
  match parts with
  | [] => ""
  | [p] => p
  | p :: rest => p ++ sep ++ join sep rest
  end.

(** [repr(v)], for strings without quotes, backslashes or control
    characters (the only ones the scripts print this way). *)
Fixpoint repr (v : PyVal) : string :=
  match v with
  | VInt n => str_of_Z n
  | VFloat l => l
  | VStr s => "'" ++ s ++ "'"
  | VRef name => "<" ++ name ++ ">"
  | VList items => "[" ++ join ", " (map repr items) ++ "]"
  | VDict items =>
      "{" ++ join ", " (map (fun kv => "'" ++ fst kv ++ "': " ++ repr (snd kv)) items)
          ++ "}"
  end.

(** [str(v)], what an f-string substitutes. *)
Definition str (v : PyVal) : string :=
  match v with
  | VStr s => s
  | _ => repr v
  end.

(** [d.get(key, default)] on a dict kept as an association list. *)
Fixpoint dict_get (d : list (string * PyVal)) (key : string) (default : PyVal) : PyVal :=
  match d with
  | [] => default
  | (k, v) :: rest => if String.eqb k key then v else dict_get rest key default
  end.

(** [s[:n]] *)
Definition slice_to (n : nat) (s : string) : string := substring 0 n s.

(** [s * n] *)
Fixpoint str_mul (s : string) (n : nat) : string :=
  match n with
  | O => ""
  | S n' => s ++ str_mul s n'
  end.

(** [s.startswith(p)] *)
Fixpoint startswith (s p : string) {struct p} : bool :=
  match p with
  | EmptyString => true
  | String a p' =>
      match s with
      | EmptyString => false
      | String b s' => if Ascii.eqb a b then startswith s' p' else false
      end
  end.

Definition ends_with_slash (s : string) : bool :=
  match String.length s with
  | O => false
  | S n => String.eqb (substring n 1 s) "/"
  end.

(** [os.path.join(a, b)] (POSIX) *)
Definition path_join (a b : string) : string :=
  if startswith b "/" then b
  else if orb (String.eqb a "") (ends_with_slash a) then a ++ b
  else a ++ "/" ++ b.

(** *** [str.format] with named fields

    One left-to-right pass over the template: [{{] and [}}] are escaped
    braces, [{name}] is replaced by the value bound to [name]. Substituted
    text is not scanned again. *)
Inductive FormatState : Type :=
| InText
| AfterOpen
| InField (name : string)
| AfterClose.

Fixpoint lookup (kw : list (string * string)) (name : string) : option string :=
  match kw with
  | [] => None
  | (k, v) :: rest => if String.eqb k name then Some v else lookup rest name
  end.

Definition KeyError (name : string) : Exn := mkExn "KeyError" ("'" ++ name ++ "'").
Definition ValueError (msg : string) : Exn := mkExn "ValueError" msg.

Definition emit (c : ascii) (r : Result string) : Result string :=
  match r with
  | Ok s => Ok (String c s)
  | Raise e => Raise e
  end.

Definition emit_value (v : string) (r : Result string) : Result string :=
  match r with
  | Ok s => Ok (v ++ s)
  | Raise e => Raise e
  end.

Definition close_field (kw : list (string * string)) (name : string)
           (rest : Result string) : Result string :=
  match lookup kw name with
  | Some v => emit_value v rest
  | None => Raise (KeyError name)
  end.

Fixpoint format_from (st : FormatState) (kw : list (string * string))
         (template : string) : Result string :=
  match template with
  | EmptyString =>
      match st with
      | InText => Ok ""
      | AfterOpen => Raise (ValueError "Single '{' encountered in format string")
      | InField _ => Raise (ValueError "expected '}' before end of string")
      | AfterClose => Raise (ValueError "Single '}' encountered in format string")
      end
  | String c rest =>
      match st with
      | InText =>
          if Ascii.eqb c "{" then format_from AfterOpen kw rest
          else if Ascii.eqb c "}" then format_from AfterClose kw rest
          else emit c (format_from InText kw rest)
      | AfterOpen =>
          if Ascii.eqb c "{" then emit c (format_from InText kw rest)
          else if Ascii.eqb c "}" then close_field kw "" (format_from InText kw rest)
          else format_from (InField (String c EmptyString)) kw rest
      | InField name =>
          if Ascii.eqb c "}" then close_field kw name (format_from InText kw rest)
          else format_from (InField (name ++ String c EmptyString)) kw rest
      | AfterClose =>
          if Ascii.eqb c "}" then emit c (format_from InText kw rest)
          else Raise (ValueError "Single '}' encountered in format string")
      end
  end.

Definition format (template : string) (kw : list (string * string)) : Result string :=
  format_from InText kw template.

(** [t in s] for strings *)
Definition contains (s t : string) : Prop :=
  exists before after, s = before ++ t ++ after.

End Py.
Import Py.

(** ** Library objects the repository handles as data *)

(** [langchain] documents: text and metadata. *)
Record Document : Type := mkDocument {
  page_content : string;
  metadata : list (string * PyVal)
}.

(** The chat model's reply; [StrOutputParser] returns its [content]. *)
Record Message : Type := mkMessage { content : string }.

(** [PromptTemplate(template=..., input_variables=[...])] *)
Record PromptTemplate : Type := mkPromptTemplate {
  template : string;
  input_variables : list string
}.

Definition has_key (kw : list (string * string)) (name : string) : bool :=
  match lookup kw name with Some _ => true | None => false end.

Fixpoint first_missing (kw : list (string * string)) (names : list string) : option string :=
  match names with
  | [] => None
  | n :: rest => if has_key kw n then first_missing kw rest else Some n
  end.

(** Invoking a prompt template on a dict: the declared variables must be
    present, then the template is filled in by [str.format]. *)
Definition prompt_format (p : PromptTemplate) (kw : list (string * string)) : Result string :=
  match first_missing kw (input_variables p) with
  | Some n => Raise (KeyError n)
  | None => format (template p) kw
  end.

(** ** The external world

    The objects the libraries hand back are opaque to the scripts. *)
Record Handles : Type := mkHandles {
  LLM : Type;
  Embeddings : Type;
  Loader : Type;
  TextSplitter : Type;
  VectorStore : Type;
  Retriever : Type
}.

(** Every library call the two scripts make, with the type of its result. *)
Inductive Call (H : Handles) : Type -> Type :=
| load_dotenv : Call H bool
| getcwd : Call H string
| ChatGroq (kwargs : Kwargs) : Call H (LLM H)
| GoogleGenerativeAIEmbeddings (kwargs : Kwargs) : Call H (Embeddings H)
| DirectoryLoader (path : string) (kwargs : Kwargs) : Call H (Loader H)
| load (loader : Loader H) : Call H (list Document)
| RecursiveCharacterTextSplitter (kwargs : Kwargs) : Call H (TextSplitter H)
| split_documents (splitter : TextSplitter H) (docs : list Document) : Call H (list Document)
| FAISS_from_documents (docs : list Document) (embedding : Embeddings H) : Call H (VectorStore H)
| as_retriever (vectordb : VectorStore H) (kwargs : Kwargs) : Call H (Retriever H)
| get_relevant_documents (retriever : Retriever H) (query : string) : Call H (list Document)
| retriever_invoke (retriever : Retriever H) (query : string) : Call H (list Document)
| llm_invoke (llm : LLM H) (prompt : string) : Call H Message.

Arguments load_dotenv {H}.
Arguments getcwd {H}.
Arguments ChatGroq {H} kwargs.
Arguments GoogleGenerativeAIEmbeddings {H} kwargs.
Arguments DirectoryLoader {H} path kwargs.
Arguments load {H} loader.
Arguments RecursiveCharacterTextSplitter {H} kwargs.
Arguments split_documents {H} splitter docs.
Arguments FAISS_from_documents {H} docs embedding.
Arguments as_retriever {H} vectordb kwargs.
Arguments get_relevant_documents {H} retriever query.
Arguments retriever_invoke {H} retriever query.
Arguments llm_invoke {H} llm prompt.

(** What a run leaves behind, in order: lines printed and calls made, each
    call with what it returned or raised. *)
Inductive Event (H : Handles) : Type :=
| Printed (text : string)
| Called {T : Type} (c : Call H T) (r : Result T).
Arguments Printed {H} text.
Arguments Called {H T} c r.

(** An external world: its state and how it answers each call. *)
Record Externals : Type := mkExternals {
  handles : Handles;
  World : Type;
  respond : forall T : Type, Call handles T -> World -> Result T * World
}.

(** ** Execution: state, exceptions, output *)

Section Effects.

Variable X : Externals.

Record State : Type := mkState {
  world : World X;
  trace : list (Event (handles X))
}.

Definition M (A : Type) : Type := State -> Result A * State.

Definition ret {A : Type} (a : A) : M A := fun st => (Ok a, st).

Definition bind {A B : Type} (m : M A) (k : A -> M B) : M B :=
  fun st =>
    match m st with
    | (Ok a, st') => k a st'
    | (Raise e, st') => (Raise e, st')
    end.

Definition raise {A : Type} (e : Exn) : M A := fun st => (Raise e, st).

(** [try: body / except Exception as e: handler e] *)
Definition try_except {A : Type} (body : M A) (handler : Exn -> M A) : M A :=
  fun st =>
    match body st with
    | (Ok a, st') => (Ok a, st')
    | (Raise e, st') => handler e st'
    end.

Definition print (text : string) : M unit :=
  fun st => (Ok tt, mkState (world st) (trace st ++ [Printed text])).

Definition call {T : Type} (c : Call (handles X) T) : M T :=
  fun st =>
    let (r, w) := respond X T c (world st) in
    (r, mkState w (trace st ++ [Called c r])).

Definition lift {A : Type} (r : Result A) : M A :=
  match r with
  | Ok a => ret a
  | Raise e => raise e
  end.

(** [for x in xs: body x] *)
Fixpoint for_each {A : Type} (xs : list A) (body : A -> M unit) : M unit :=
  match xs with
  | [] => ret tt
  | x :: rest => bind (body x) (fun _ => for_each rest body)
  end.

(** [enumerate(xs)] *)
Definition enumerate {A : Type} (xs : list A) : list (nat * A) :=
  combine (seq 0 (List.length xs)) xs.

(** *** Runnables: the pieces of a chain, composed with [|] *)

Definition Runnable (A B : Type) : Type := A -> M B.

Definition pipe {A B C : Type} (f : Runnable A B) (g : Runnable B C) : Runnable A C :=
  fun a => bind (f a) g.

(** A plain function used as a chain step. *)
Definition RunnableLambda {A B : Type} (f : A -> B) : Runnable A B :=
  fun a => ret (f a).

Definition RunnablePassthrough {A : Type} : Runnable A A := fun a => ret a.

(** A dict of two steps: both receive the chain's input, the results are
    gathered under the dict's keys. The library may run the steps side by
    side; in both chains the second step is the passthrough, which has no
    effect, so running them one after the other loses nothing. *)
Definition RunnableParallel {A : Type} (k1 : string) (r1 : Runnable A string)
           (k2 : string) (r2 : Runnable A string) : Runnable A (list (string * string)) :=
  fun a => bind (r1 a) (fun v1 => bind (r2 a) (fun v2 => ret [(k1, v1); (k2, v2)])).

Definition retriever_step (r : Retriever (handles X)) : Runnable string (list Document) :=
  fun query => call (retriever_invoke r query).

Definition prompt_step (p : PromptTemplate) : Runnable (list (string * string)) string :=
  fun kw => lift (prompt_format p kw).

Definition llm_step (llm : LLM (handles X)) : Runnable string Message :=
  fun prompt => call (llm_invoke llm prompt).

Definition StrOutputParser : Runnable Message string :=
  fun m => ret (content m).

End Effects.

Arguments mkState {X} world trace.
Arguments world {X} s.
Arguments trace {X} s.
Arguments ret {X A} a.
Arguments bind {X A B} m k.
Arguments raise {X A} e.
Arguments try_except {X A} body handler.
Arguments print {X} text.
Arguments call {X T} c.
Arguments lift {X A} r.
Arguments for_each {X A} xs body.
Arguments pipe {X A B C} f g.
Arguments RunnableLambda {X A B} f.
Arguments RunnablePassthrough {X A}.
Arguments RunnableParallel {X A} k1 r1 k2 r2.
Arguments retriever_step {X} r.
Arguments prompt_step {X} p.
Arguments llm_step {X} llm.
Arguments StrOutputParser {X}.

Declare Scope py_scope.
Delimit Scope py_scope with py.
Notation "x <- m ;; k" := (bind m (fun x => k))
  (at level 61, m at next level, right associativity) : py_scope.
Notation "' p <- m ;; k" := (bind m (fun x => match x with p => k end))
  (at level 61, p pattern, m at next level, right associativity) : py_scope.
Notation "m ;; k" := (bind m (fun _ => k))
  (at level 61, right associativity) : py_scope.
Notation "f >> g" := (pipe f g) (at level 55, left associativity) : py_scope.
Open Scope py_scope.

(** ** fix_rag_chain.py *)

Module FixRagChain.

Section Script.

Variable X : Externals.

Definition fixed_prompt_template : string :=
  nl ++ "Answer the question based on the context provided below." ++ nl ++
  "If the context does not contain sufficient information, respond with:" ++ nl ++
  dq ++ "I do not have enough information to answer this question" ++ dq ++ nl ++
  nl ++
  "Context: {context}" ++ nl ++
  nl ++
  "Question: {question}" ++ nl ++
  nl ++
  "Answer:".

Definition prompt : PromptTemplate :=
  mkPromptTemplate fixed_prompt_template ["context"; "question"].

Definition format_docs (docs : list Document) : string :=
  join (nl ++ nl) (map page_content docs).

(** The chain built at the end of [fix_rag_chain]. *)
Definition fixed_rag_chain (retriever : Retriever (handles X)) (llm : LLM (handles X))
  : Runnable X string string :=
  RunnableParallel "context" (retriever_step retriever >> RunnableLambda format_docs)
                   "question" RunnablePassthrough
  >> prompt_step prompt
  >> llm_step llm
  >> StrOutputParser.

Definition fix_rag_chain : M X (Runnable X string string * VectorStore (handles X)) :=
  print "🔧 Fixing RAG Chain Issues..." ;;
  print (nl ++ "1. Fixing prompt template typo...") ;;
  print "2. Using better LLM model..." ;;
  llm <- call (ChatGroq [("model", VStr "llama3-8b-8192"); ("temperature", VFloat "0.1")]) ;;
  print "3. Improving text splitting..." ;;
  text_splitter <- call (RecursiveCharacterTextSplitter
                           [("chunk_size", VInt 1000); ("chunk_overlap", VInt 200);
                            ("length_function", VRef "len")]) ;;
  print "4. Loading documents..." ;;
  cwd <- call getcwd ;;
  let dir_path := path_join (path_join cwd "notebook") "data" in
  dir_loader <- call (DirectoryLoader dir_path
                        [("glob", VStr "**/*.pdf"); ("loader_cls", VRef "PyPDFLoader")]) ;;
  docs <- call (load dir_loader) ;;
  print ("   Loaded " ++ str_of_nat (List.length docs) ++ " documents") ;;
  split_docs <- call (split_documents text_splitter docs) ;;
  print ("   Split into " ++ str_of_nat (List.length split_docs) ++ " chunks") ;;
  print "5. Creating vector store..." ;;
  embedding_model <- call (GoogleGenerativeAIEmbeddings [("model", VStr "models/embedding-001")]) ;;
  vectordb <- call (FAISS_from_documents split_docs embedding_model) ;;
  print "6. Configuring retriever..." ;;
  retriever <- call (as_retriever vectordb
                       [("search_type", VStr "similarity");
                        ("search_kwargs", VDict [("k", VInt 5)])]) ;;
  print "7. Creating improved prompt..." ;;
  print "8. Creating fixed RAG chain..." ;;
  print "✅ RAG Chain Fixed!" ;;
  ret (fixed_rag_chain retriever llm, vectordb).

Definition test_questions : list string :=
  ["can you tell me how Reward Modeling works?";
   "What is LoRA?";
   "What are the main findings in the Llama 2 paper?"].

(** The body of the [for question in test_questions] loop. *)
Definition test_question (rag_chain : Runnable X string string)
           (vectordb : VectorStore (handles X)) (question : string) : M X unit :=
  print (nl ++ "❓ Question: " ++ question) ;;
  print (str_mul "-" 40) ;;
  try_except
    (retriever <- call (as_retriever vectordb [("search_kwargs", VDict [("k", VInt 5)])]) ;;
     docs <- call (get_relevant_documents retriever question) ;;
     print ("📄 Retrieved " ++ str_of_nat (List.length docs) ++ " documents") ;;
     answer <- rag_chain question ;;
     print ("💡 Answer: " ++ answer))
    (fun e => print ("❌ Error: " ++ exn_str e)) ;;
  print (str_mul "-" 40).

Definition test_fixed_rag : M X unit :=
  ' (rag_chain, vectordb) <- fix_rag_chain ;;
  print (nl ++ "🧪 Testing Fixed RAG Chain...") ;;
  print (str_mul "=" 60) ;;
  for_each test_questions (test_question rag_chain vectordb).

(** The script run as a program: the module body, then the entry point. *)
Definition main : M X unit :=
  call load_dotenv ;;
  test_fixed_rag.

End Script.

End FixRagChain.

(** ** improved_rag_debug.py *)

Module ImprovedRagDebug.

Section Script.

Variable X : Externals.

Definition setup_components
  : M X (LLM (handles X) * Embeddings (handles X) * VectorStore (handles X) * list Document) :=
  llm <- call (ChatGroq [("model", VStr "llama3-8b-8192"); ("temperature", VFloat "0.1")]) ;;
  embedding_model <- call (GoogleGenerativeAIEmbeddings [("model", VStr "models/embedding-001")]) ;;
  cwd <- call getcwd ;;
  let dir_path := path_join (path_join cwd "notebook") "data" in
  dir_loader <- call (DirectoryLoader dir_path
                        [("glob", VStr "**/*.pdf"); ("loader_cls", VRef "PyPDFLoader")]) ;;
  docs <- call (load dir_loader) ;;
  print ("Loaded " ++ str_of_nat (List.length docs) ++ " documents") ;;
  text_splitter <- call (RecursiveCharacterTextSplitter
                           [("chunk_size", VInt 1000); ("chunk_overlap", VInt 200);
                            ("length_function", VRef "len");
                            ("separators",
                             VList [VStr (nl ++ nl); VStr nl; VStr ". "; VStr " "; VStr ""])]) ;;
  split_docs <- call (split_documents text_splitter docs) ;;
  print ("Split into " ++ str_of_nat (List.length split_docs) ++ " chunks") ;;
  vectordb <- call (FAISS_from_documents split_docs embedding_model) ;;
  ret (llm, embedding_model, vectordb, split_docs).

Definition improved_prompt_template : string :=
  nl ++
  "You are a helpful AI assistant. Answer the question based on the context provided below." ++ nl ++
  "If the context does not contain sufficient information to answer the question accurately, respond with:" ++ nl ++
  dq ++ "I do not have enough information to answer this question accurately." ++ dq ++ nl ++
  nl ++
  "Guidelines:" ++ nl ++
  "- Use only the information provided in the context" ++ nl ++
  "- Be specific and detailed in your response" ++ nl ++
  "- If the context contains relevant data, cite it appropriately" ++ nl ++
  "- If the question is not addressed in the context, say so clearly" ++ nl ++
  "- Provide a comprehensive answer based on the available context" ++ nl ++
  nl ++
  "Context: {context}" ++ nl ++
  nl ++
  "Question: {question}" ++ nl ++
  nl ++
  "Answer:".

Definition create_improved_prompt : PromptTemplate :=
  mkPromptTemplate improved_prompt_template ["context"; "question"].

Definition format_docs (docs : list Document) : string :=
  join (nl ++ nl) (map page_content docs).

Definition retriever_configs : list Kwargs :=
  [[("k", VInt 3); ("search_type", VStr "similarity")];
   [("k", VInt 5); ("search_type", VStr "similarity")];
   [("k", VInt 7); ("search_type", VStr "similarity")];
   [("k", VInt 3); ("search_type", VStr "mmr")]].

(** The body of [for i, config in enumerate(retriever_configs)]. *)
Definition try_config (question : string) (vectordb : VectorStore (handles X))
           (ic : nat * Kwargs) : M X unit :=
  let (i, config) := ic in
  print (nl ++ "Retriever config " ++ str_of_nat (i + 1) ++ ": " ++ repr (VDict config)) ;;
  retriever <- call (as_retriever vectordb config) ;;
  retrieved_docs <- call (get_relevant_documents retriever question) ;;
  print ("  Retrieved " ++ str_of_nat (List.length retrieved_docs) ++ " documents") ;;
  match retrieved_docs with
  | first :: _ =>
      print ("  First doc preview: " ++ slice_to 200 (page_content first) ++ "...") ;;
      print ("  Source: " ++ str (dict_get (metadata first) "source" (VStr "Unknown")))
  | [] => ret tt
  end.

(** The body of [for i, doc in enumerate(retrieved_docs)]. *)
Definition show_document (id : nat * Document) : M X unit :=
  let (i, doc) := id in
  print (nl ++ "Document " ++ str_of_nat (i + 1) ++ ":") ;;
  print ("  Content: " ++ slice_to 300 (page_content doc) ++ "...") ;;
  print ("  Source: " ++ str (dict_get (metadata doc) "source" (VStr "Unknown"))) ;;
  print ("  Page: " ++ str (dict_get (metadata doc) "page" (VStr "Unknown"))).

(** The chain built in step 4 of [debug_rag_chain]. *)
Definition rag_chain (best_retriever : Retriever (handles X)) (llm : LLM (handles X))
           (prompt : PromptTemplate) : Runnable X string string :=
  RunnableParallel "context" (retriever_step best_retriever >> RunnableLambda format_docs)
                   "question" RunnablePassthrough
  >> prompt_step prompt
  >> llm_step llm
  >> StrOutputParser.

Definition debug_rag_chain (question : string) (vectordb : VectorStore (handles X))
           (llm : LLM (handles X)) (prompt : PromptTemplate) : M X (option string) :=
  print (str_mul "=" 80) ;;
  print "RAG CHAIN DEBUG" ;;
  print (str_mul "=" 80) ;;
  print ("Question: " ++ question) ;;
  print (nl ++ "1. TESTING RETRIEVAL") ;;
  print (str_mul "-" 40) ;;
  for_each (enumerate retriever_configs) (try_config question vectordb) ;;
  print (nl ++ "2. USING OPTIMAL CONFIGURATION") ;;
  print (str_mul "-" 40) ;;
  best_retriever <- call (as_retriever vectordb
                            [("search_type", VStr "similarity");
                             ("search_kwargs", VDict [("k", VInt 5)])]) ;;
  retrieved_docs <- call (get_relevant_documents best_retriever question) ;;
  print ("Retrieved " ++ str_of_nat (List.length retrieved_docs) ++ " documents") ;;
  for_each (enumerate retrieved_docs) show_document ;;
  print (nl ++ "3. TESTING PROMPT FORMATTING") ;;
  print (str_mul "-" 40) ;;
  let formatted_context := format_docs retrieved_docs in
  print ("Formatted context length: " ++ str_of_nat (String.length formatted_context)
         ++ " characters") ;;
  print ("Context preview: " ++ slice_to 500 formatted_context ++ "...") ;;
  print (nl ++ "4. TESTING LLM RESPONSE") ;;
  print (str_mul "-" 40) ;;
  try_except
    (answer <- rag_chain best_retriever llm prompt question ;;
     print "SUCCESS! Generated answer:" ;;
     print answer ;;
     ret (Some answer))
    (fun e =>
       print ("ERROR: " ++ exn_str e) ;;
       ret None).

Definition test_questions : list string :=
  ["can you tell me how Reward Modeling works?";
   "What is LoRA?";
   "What are the main findings in the Llama 2 paper?";
   "How does fine-tuning work?";
   "What are the benchmark results?"].

(** The body of the [for question in test_questions] loop. *)
Definition test_question (vectordb : VectorStore (handles X)) (llm : LLM (handles X))
           (prompt : PromptTemplate) (question : string) : M X unit :=
  print (nl ++ str_mul "=" 60) ;;
  print ("Testing: " ++ question) ;;
  print (str_mul "=" 60) ;;
  debug_rag_chain question vectordb llm prompt ;;
  ret tt.

Definition test_different_questions : M X unit :=
  print "Setting up components..." ;;
  ' (llm, embedding_model, vectordb, split_docs) <- setup_components ;;
  let prompt := create_improved_prompt in
  print (nl ++ "Testing different questions...") ;;
  for_each test_questions (test_question vectordb llm prompt).

(** The script run as a program: the module body, then the entry point. *)
Definition main : M X unit :=
  call load_dotenv ;;
  test_different_questions.

End Script.

End ImprovedRagDebug.

(** ** Reading a trace *)

Section Traces.

Variable H : Handles.

Definition is_printed (e : Event H) : bool :=
  match e with
  | Printed _ => true
  | Called _ _ => false
  end.

(** Calls of the setup phase: building the LLM client, the embedding model,
    the loader, the splitter and the index. *)
Definition is_setup_call (e : Event H) : bool :=
  match e with
  | Called (ChatGroq _) _ => true
  | Called (GoogleGenerativeAIEmbeddings _) _ => true
  | Called (DirectoryLoader _ _) _ => true
  | Called (load _) _ => true
  | Called (RecursiveCharacterTextSplitter _) _ => true
  | Called (split_documents _ _) _ => true
  | Called (FAISS_from_documents _ _) _ => true
  | _ => false
  end.

(** Calls that answer a question: retrieval and generation. *)
Definition is_question_call (e : Event H) : bool :=
  match e with
  | Called (get_relevant_documents _ _) _ => true
  | Called (retriever_invoke _ _) _ => true
  | Called (llm_invoke _ _) _ => true
  | _ => false
  end.

(** Calls that build or query a retriever. *)
Definition is_retrieval_call (e : Event H) : bool :=
  match e with
  | Called (as_retriever _ _) _ => true
  | Called (get_relevant_documents _ _) _ => true
  | Called (retriever_invoke _ _) _ => true
  | _ => false
  end.

(** Anything done for a question: retrieval, generation, or the line that
    announces the question. *)
Definition question_activity (e : Event H) : bool :=
  match e with
  | Printed text => orb (startswith text "Testing: ") (startswith text (nl ++ "❓ Question: "))
  | Called _ _ => is_question_call e
  end.

Definition no_question_activity (e : Event H) : bool := negb (question_activity e).

Definition not_setup_call (e : Event H) : bool := negb (is_setup_call e).

(** A call that raised. *)
Definition is_failure (e : Event H) : bool :=
  match e with
  | Called _ (Raise _) => true
  | _ => false
  end.

(** Lines printed that start with [p]. *)
Definition printed_with (p : string) (e : Event H) : bool :=
  match e with
  | Printed text => startswith text p
  | Called _ _ => false
  end.

Definition count_printed_with (p : string) (t : list (Event H)) : nat :=
  List.length (filter (printed_with p) t).

(** The texts printed, in order. *)
Fixpoint output (t : list (Event H)) : list string :=
  match t with
  | [] => []
  | Printed text :: rest => text :: output rest
  | Called _ _ :: rest => output rest
  end.

End Traces.

Arguments is_printed {H} e.
Arguments is_setup_call {H} e.
Arguments is_question_call {H} e.
Arguments question_activity {H} e.
Arguments no_question_activity {H} e.
Arguments not_setup_call {H} e.
Arguments is_failure {H} e.
Arguments is_retrieval_call {H} e.
Arguments printed_with {H} p e.
Arguments count_printed_with {H} p t.
Arguments output {H} t.

(** ** The prompts with their slots filled in *)

Definition fixed_instructions : string :=
  nl ++ "Answer the question based on the context provided below." ++ nl ++
  "If the context does not contain sufficient information, respond with:" ++ nl ++
  dq ++ "I do not have enough information to answer this question" ++ dq ++ nl ++
  nl.

Definition improved_instructions : string :=
  nl ++
  "You are a helpful AI assistant. Answer the question based on the context provided below." ++ nl ++
  "If the context does not contain sufficient information to answer the question accurately, respond with:" ++ nl ++
  dq ++ "I do not have enough information to answer this question accurately." ++ dq ++ nl ++
  nl ++
  "Guidelines:" ++ nl ++
  "- Use only the information provided in the context" ++ nl ++
  "- Be specific and detailed in your response" ++ nl ++
  "- If the context contains relevant data, cite it appropriately" ++ nl ++
  "- If the question is not addressed in the context, say so clearly" ++ nl ++
  "- Provide a comprehensive answer based on the available context" ++ nl ++
  nl.

(** Both templates end the same way: the two slots under their labels. *)
Definition slots_text (context question : string) : string :=
  "Context: " ++ context ++ nl ++
  nl ++
  "Question: " ++ question ++ nl ++
  nl ++
  "Answer:".

Definition fixed_prompt_text (context question : string) : string :=
  fixed_instructions ++ slots_text context question.

Definition improved_prompt_text (context question : string) : string :=
  improved_instructions ++ slots_text context question.

(** ** A small concrete library, for running the scripts

    Credentials may be missing, the data directory holds [files], the
    network may be down when a question is asked, and a query returns at
    most [hits] documents. *)

Module Toy.

Definition toy_handles : Handles :=
  mkHandles unit unit string unit (list Document) (list Document).

Definition GroqError : Exn :=
  mkExn "GroqError" "The api_key client option must be set".
Definition IndexError : Exn := mkExn "IndexError" "list index out of range".
Definition ConnectionError : Exn := mkExn "ConnectionError" "Connection refused".

Definition toy_respond (credentials : bool) (files : list Document) (online : bool)
           (hits : nat) (T : Type) (c : Call toy_handles T) (w : unit) : Result T * unit :=
  match c in Call _ T return Result T * unit with
  | load_dotenv => (Ok credentials, w)
  | getcwd => (Ok "/app", w)
  | ChatGroq _ => (if credentials then Ok tt else Raise GroqError, w)
  | GoogleGenerativeAIEmbeddings _ => (Ok tt, w)
  | DirectoryLoader path _ => (Ok path, w)
  | load _ => (Ok files, w)
  | RecursiveCharacterTextSplitter _ => (Ok tt, w)
  | split_documents _ docs => (Ok docs, w)
  | FAISS_from_documents docs _ =>
      (match docs with [] => Raise IndexError | _ :: _ => Ok docs end, w)
  | as_retriever vectordb _ => (Ok vectordb, w)
  | get_relevant_documents r _ =>
      (if online then Ok (firstn hits r) else Raise ConnectionError, w)
  | retriever_invoke r _ =>
      (if online then Ok (firstn hits r) else Raise ConnectionError, w)
  | llm_invoke _ _ =>
      (Ok (mkMessage "LoRA is a parameter-efficient fine-tuning method."), w)
  end.

Definition toy (credentials : bool) (files : list Document) (online : bool) (hits : nat)
  : Externals :=
  mkExternals toy_handles unit (toy_respond credentials files online hits).

Definition page : Document :=
  mkDocument "LoRA is a parameter-efficient fine-tuning method."
             [("source", VStr "notebook/data/lora.pdf"); ("page", VInt 0)].

(** Everything works. *)
Definition healthy : Externals := toy true [page] true 4.
(** The API key is not set. *)
Definition no_credentials : Externals := toy false [page] true 4.
(** The data directory holds no PDF. *)
Definition empty_directory : Externals := toy true [] true 4.
(** Setup succeeds, then every retrieval fails. *)
Definition offline : Externals := toy true [page] false 4.
(** Retrieval succeeds and finds nothing. *)
Definition no_hits : Externals := toy true [page] true 0.

(** The API key is not set, and nothing notices before the model is called:
    the client is built all the same and each call of the model is refused. *)
Definition AuthenticationError : Exn :=
  mkExn "AuthenticationError" "Invalid API Key".

Definition late_key_respond (T : Type) (c : Call toy_handles T) (w : unit)
  : Result T * unit :=
  match c in Call _ T return Result T * unit with
  | ChatGroq _ => (Ok tt, w)
  | llm_invoke _ _ => (Raise AuthenticationError, w)
  | c' => toy_respond false [page] true 4 _ c' w
  end.

Definition late_key : Externals := mkExternals toy_handles unit late_key_respond.

Definition start (X : Externals) (w : World X) : State X := mkState w [].

Definition answer : string := "LoRA is a parameter-efficient fine-tuning method.".

(** A script run from a fresh start. *)
Definition fix_main_run (X : Externals) (w : World X) : Result unit * State X :=
  FixRagChain.main X (start X w).

Definition debug_main_run (X : Externals) (w : World X) : Result unit * State X :=
  ImprovedRagDebug.main X (start X w).

(** [debug_rag_chain("What is LoRA?", vectordb, llm, prompt)] on the index of
    the one page, from a fresh start, in a world built by [toy]. *)
Definition debug_run (credentials : bool) (files : list Document) (online : bool)
           (hits : nat)
  : Result (option string) * State (toy credentials files online hits) :=
  ImprovedRagDebug.debug_rag_chain
    (toy credentials files online hits) "What is LoRA?" [page] tt
    ImprovedRagDebug.create_improved_prompt
    (start (toy credentials files online hits) tt).

End Toy.

(** ** What "joined by a separator" means

    The first part, then every further part preceded by the separator. *)
Definition separated_by (sep : string) (parts : list string) : string :=
  match parts with
  | [] => ""
  | first :: others => first ++ fold_right (fun p acc => sep ++ p ++ acc) "" others
  end.

(** ** What the debug routine reports

    The events of the first two steps of [debug_rag_chain], for retrievers
    and documents as the library returned them. *)

Section Reports.

Variable H : Handles.

Definition banner (question : string) : list (Event H) :=
  [Printed (str_mul "=" 80);
   Printed "RAG CHAIN DEBUG";
   Printed (str_mul "=" 80);
   Printed ("Question: " ++ question);
   Printed (nl ++ "1. TESTING RETRIEVAL");
   Printed (str_mul "-" 40)].

(** The preview of the first document, when there is one. *)
Definition preview (docs : list Document) : list (Event H) :=
  match docs with
  | [] => []
  | first :: _ =>
      [Printed ("  First doc preview: " ++ slice_to 200 (page_content first) ++ "...");
       Printed ("  Source: " ++ str (dict_get (metadata first) "source" (VStr "Unknown")))]
  end.

(** Configuration number [n]: announced, turned into retriever [r], queried
    with the question, and the result [docs] counted and previewed. *)
Definition config_report (vectordb : VectorStore H) (question : string) (n : nat)
           (config : Kwargs) (r : Retriever H) (docs : list Document) : list (Event H) :=
  ([Printed (nl ++ "Retriever config " ++ str_of_nat n ++ ": " ++ repr (VDict config));
    Called (as_retriever vectordb config) (Ok r);
    Called (get_relevant_documents r question) (Ok docs);
    Printed ("  Retrieved " ++ str_of_nat (List.length docs) ++ " documents")]
   ++ preview docs)%list.

Definition similarity_k5 : Kwargs :=
  [("search_type", VStr "similarity"); ("search_kwargs", VDict [("k", VInt 5)])].

(** Step 2: the retriever [rb] used for the answer, and its result [db]. *)
Definition best_retrieval (vectordb : VectorStore H) (question : string)
           (rb : Retriever H) (db : list Document) : list (Event H) :=
  [Printed (nl ++ "2. USING OPTIMAL CONFIGURATION");
   Printed (str_mul "-" 40);
   Called (as_retriever vectordb similarity_k5) (Ok rb);
   Called (get_relevant_documents rb question) (Ok db);
   Printed ("Retrieved " ++ str_of_nat (List.length db) ++ " documents")].

Definition no_retrieval_call (e : Event H) : bool := negb (is_retrieval_call e).

End Reports.

Arguments banner {H} question.
Arguments preview {H} docs.
Arguments config_report {H} vectordb question n config r docs.
Arguments best_retrieval {H} vectordb question rb db.
Arguments no_retrieval_call {H} e.

(** ** Shapes of computations *)

Section Shapes.

Variable X : Externals.

(** The computation only adds events, all of the kind [keep]. *)
Definition appends_only {A : Type} (keep : Event (handles X) -> bool) (m : M X A) : Prop :=
  forall st, exists evs, trace (snd (m st)) = (trace st ++ evs)%list /\ forallb keep evs = true.

(** The computation returns, whatever the world answers. *)
Definition never_raises {A : Type} (m : M X A) : Prop :=
  forall st, exists a, fst (m st) = Ok a.

End Shapes.


(** ** Where a run can end in an exception *)

Section Failures.

Variable X : Externals.

(** The event is a call that raised [e]. *)
Definition failed_call (e : Exn) (ev : Event (handles X)) : Prop :=
  exists (T : Type) (c : Call (handles X) T), ev = Called c (Raise e).

(** The event is the building or the direct query of a retriever, which
    raised [e]. *)
Definition failed_retrieval (e : Exn) (ev : Event (handles X)) : Prop :=
  (exists vectordb kwargs, ev = Called (as_retriever vectordb kwargs) (Raise e))
  \/ (exists retriever query, ev = Called (get_relevant_documents retriever query) (Raise e)).

(** The event is a call of the chain: the retriever or the model invoked
    as a chain step. *)
Definition is_chain_call (ev : Event (handles X)) : bool :=
  match ev with
  | Called (retriever_invoke _ _) _ => true
  | Called (llm_invoke _ _) _ => true
  | _ => false
  end.

(** The event is a call outside the chain, which raised [e]. *)
Definition failed_outside_chain (e : Exn) (ev : Event (handles X)) : Prop :=
  failed_call e ev /\ is_chain_call ev = false.

(** The event is a call made before the question loop, which raised [e]. *)
Definition failed_before_questions (e : Exn) (ev : Event (handles X)) : Prop :=
  failed_call e ev /\ is_question_call ev = false.

(** Whenever the computation raises, the last event of the trace is of the
    kind [P] for the exception raised: nothing is printed or called after. *)
Definition stops_at {A : Type} (P : Exn -> Event (handles X) -> Prop) (m : M X A) : Prop :=
  forall st e st',
    m st = (Raise e, st') -> exists evs ev, trace st' = (evs ++ [ev])%list /\ P e ev.

(** Whenever the computation raises, it has only added events of the kind
    [keep], the last of them the call that raised the exception. *)
Definition fails_within {A : Type} (keep : Event (handles X) -> bool) (m : M X A) : Prop :=
  forall st e st',
    m st = (Raise e, st') ->
    exists evs ev,
      trace st' = (trace st ++ evs ++ [ev])%list
      /\ failed_call e ev
      /\ forallb keep (evs ++ [ev])%list = true.

End Failures.

Arguments failed_call {X} e ev.
Arguments failed_retrieval {X} e ev.
Arguments failed_before_questions {X} e ev.
Arguments is_chain_call {X} ev.
Arguments failed_outside_chain {X} e ev.

(** ** What the test of fix_rag_chain.py reports *)

Section FixReports.

Variable H : Handles.

(** What follows the line announcing a question: no other announcement, and
    exactly one line that is an answer or an error. *)
Definition one_report (report : list (Event H)) : Prop :=
  filter (printed_with (nl ++ "❓ Question: ")) report = []
  /\ count_printed_with "💡 Answer: " report + count_printed_with "❌ Error: " report = 1.

(** Each question announced and followed by its report, question after
    question. *)
Fixpoint question_blocks (questions : list string) (reports : list (list (Event H)))
  : list (Event H) :=
  match questions, reports with
  | q :: qs, report :: rest =>
      (Printed (nl ++ "❓ Question: " ++ q) :: report ++ question_blocks qs rest)%list
  | _, _ => []
  end.

End FixReports.

Arguments one_report {H} report.
Arguments question_blocks {H} questions reports.

(** ** Sizes *)

(** [sum(len(d.page_content) for d in docs)] *)
Definition total_length (docs : list Document) : nat :=
  list_sum (map (fun d => String.length (page_content d)) docs).

(** * Properties *)

(** ** Strings *)

Lemma append_assoc (a b c : string) : (a ++ b) ++ c = a ++ b ++ c.
Proof.
  induction a as [|x a IH]; simpl.
  - reflexivity.
  - now rewrite IH.
Qed.

Lemma append_empty_r (a : string) : a ++ "" = a.
Proof.
  induction a as [|x a IH]; simpl; [reflexivity | now rewrite IH].
Qed.

Lemma contains_middle (a t b : string) : contains (a ++ t ++ b) t.
Proof. now exists a, b. Qed.

Lemma contains_append_l (a s t : string) : contains s t -> contains (a ++ s) t.
Proof.
  intros (u & v & ->). exists (a ++ u), v. now rewrite append_assoc.
Qed.

Lemma join_separated_by (sep : string) (parts : list string) :
  join sep parts = separated_by sep parts.
Proof.
  destruct parts as [|first others]; [reflexivity|].
  revert first. induction others as [|p others IH]; intro first.
  - simpl. now rewrite append_empty_r.
  - change (join sep (first :: p :: others)) with (first ++ sep ++ join sep (p :: others)).
    rewrite IH. reflexivity.
Qed.

Lemma join_concat (sep : string) (parts : list string) :
  join sep parts = String.concat sep parts.
Proof.
  induction parts as [|p rest IH]; [reflexivity|].
  destruct rest as [|q rest]; [reflexivity|].
  change (p ++ sep ++ join sep (q :: rest) = p ++ sep ++ String.concat sep (q :: rest)).
  now rewrite IH.
Qed.

(** ** Filling in the prompt templates *)

Lemma fixed_prompt_filled (context question : string) :
  prompt_format FixRagChain.prompt [("context", context); ("question", question)]
  = Ok (fixed_prompt_text context question).
Proof. vm_compute. reflexivity. Qed.

Lemma improved_prompt_filled (context question : string) :
  prompt_format ImprovedRagDebug.create_improved_prompt
                [("context", context); ("question", question)]
  = Ok (improved_prompt_text context question).
Proof. vm_compute. reflexivity. Qed.

Lemma slots_text_contains_context (context question : string) :
  contains (slots_text context question) context.
Proof. unfold slots_text. apply contains_middle. Qed.

Lemma slots_text_contains_question (context question : string) :
  contains (slots_text context question) question.
Proof.
  exists ("Context: " ++ context ++ nl ++ nl ++ "Question: "), (nl ++ nl ++ "Answer:").
  unfold slots_text. now rewrite !append_assoc.
Qed.

(** ** Running the effects *)

Section Running.

Variable X : Externals.

Lemma bind_ok_inv {A B : Type} (m : M X A) (k : A -> M X B) (st st' : State X) (b : B) :
  bind m k st = (Ok b, st') ->
  exists a st1, m st = (Ok a, st1) /\ k a st1 = (Ok b, st').
Proof.
  unfold bind. destruct (m st) as [[a|e] st1]; intro E.
  - now exists a, st1.
  - discriminate.
Qed.

Lemma bind_raise {A B : Type} (m : M X A) (k : A -> M X B) (st st1 : State X) (e : Exn) :
  m st = (Raise e, st1) -> bind m k st = (Raise e, st1).
Proof. unfold bind. now intros ->. Qed.

Lemma bind_ok {A B : Type} (m : M X A) (k : A -> M X B) (st st1 : State X) (a : A) :
  m st = (Ok a, st1) -> bind m k st = k a st1.
Proof. unfold bind. now intros ->. Qed.

Lemma print_run (text : string) (st : State X) :
  print text st = (Ok tt, mkState (world st) (trace st ++ [Printed text])).
Proof. reflexivity. Qed.

Lemma call_trace {T : Type} (c : Call (handles X) T) (st : State X) :
  trace (snd (call c st)) = (trace st ++ [Called c (fst (call c st))])%list.
Proof.
  unfold call. now destruct (respond X T c (world st)).
Qed.

Lemma call_ok_inv {T : Type} (c : Call (handles X) T) (st st' : State X) (a : T) :
  call c st = (Ok a, st') -> trace st' = (trace st ++ [Called c (Ok a)])%list.
Proof.
  intro E. generalize (call_trace c st). now rewrite E.
Qed.

Lemma try_except_inv {A : Type} (body : M X A) (handler : Exn -> M X A)
      (st st' : State X) (r : Result A) :
  try_except body handler st = (r, st') ->
  (exists a, body st = (Ok a, st') /\ r = Ok a)
  \/ (exists e st1, body st = (Raise e, st1) /\ handler e st1 = (r, st')).
Proof.
  unfold try_except. destruct (body st) as [[a|e] st1]; intro E.
  - left. exists a. now inversion E.
  - right. now exists e, st1.
Qed.

(** *** Computations that only add events of a given kind *)

Lemma appends_only_ret {A : Type} (keep : Event (handles X) -> bool) (a : A) : appends_only X keep (ret a).
Proof. intro st. exists []. simpl. now rewrite app_nil_r. Qed.

Lemma appends_only_raise {A : Type} (keep : Event (handles X) -> bool) (e : Exn) : appends_only X keep (@raise X A e).
Proof. intro st. exists []. simpl. now rewrite app_nil_r. Qed.

Lemma appends_only_lift {A : Type} (keep : Event (handles X) -> bool) (r : Result A) : appends_only X keep (lift r).
Proof. destruct r; [apply appends_only_ret | apply appends_only_raise]. Qed.

Lemma appends_only_print (keep : Event (handles X) -> bool) (text : string) :
  keep (Printed text) = true -> appends_only X keep (print text).
Proof. intros K st. exists [Printed text]. simpl. now rewrite K. Qed.

Lemma appends_only_call {T : Type} (keep : Event (handles X) -> bool) (c : Call (handles X) T) :
  (forall r, keep (Called c r) = true) -> appends_only X keep (call c).
Proof.
  intros K st. exists [Called c (fst (call c st))]. split.
  - apply call_trace.
  - simpl. now rewrite K.
Qed.

Lemma appends_only_bind {A B : Type} (keep : Event (handles X) -> bool) (m : M X A) (k : A -> M X B) :
  appends_only X keep m -> (forall a, appends_only X keep (k a)) ->
  appends_only X keep (bind m k).
Proof.
  intros Hm Hk st. destruct (Hm st) as (evs & E & K).
  unfold bind. destruct (m st) as [[a|e] st1]; simpl in E.
  - destruct (Hk a st1) as (evs' & E' & K').
    exists (evs ++ evs')%list. split.
    + now rewrite E', E, app_assoc.
    + now rewrite forallb_app, K, K'.
  - now exists evs.
Qed.

Lemma appends_only_try_except {A : Type} (keep : Event (handles X) -> bool) (body : M X A) (handler : Exn -> M X A) :
  appends_only X keep body -> (forall e, appends_only X keep (handler e)) ->
  appends_only X keep (try_except body handler).
Proof.
  intros Hb Hh st. destruct (Hb st) as (evs & E & K).
  unfold try_except. destruct (body st) as [[a|e] st1]; simpl in E.
  - now exists evs.
  - destruct (Hh e st1) as (evs' & E' & K').
    exists (evs ++ evs')%list. split.
    + now rewrite E', E, app_assoc.
    + now rewrite forallb_app, K, K'.
Qed.

Lemma appends_only_for_each {A : Type} (keep : Event (handles X) -> bool) (xs : list A) (body : A -> M X unit) :
  (forall x, appends_only X keep (body x)) -> appends_only X keep (for_each xs body).
Proof.
  intro Hb. induction xs as [|x xs IH]; simpl.
  - apply appends_only_ret.
  - apply appends_only_bind; [apply Hb | intros _; apply IH].
Qed.

(** *** Computations that always return *)

Lemma never_raises_ret {A : Type} (a : A) : never_raises X (ret a).
Proof. intro st. now exists a. Qed.

Lemma never_raises_print (text : string) : never_raises X (print text).
Proof. intro st. now exists tt. Qed.

Lemma never_raises_bind {A B : Type} (m : M X A) (k : A -> M X B) :
  never_raises X m -> (forall a, never_raises X (k a)) -> never_raises X (bind m k).
Proof.
  intros Hm Hk st. destruct (Hm st) as (a & E). unfold bind.
  destruct (m st) as [[a'|e] st1]; simpl in E; [|discriminate].
  apply Hk.
Qed.

Lemma never_raises_try_except {A : Type} (body : M X A) (handler : Exn -> M X A) :
  (forall e, never_raises X (handler e)) -> never_raises X (try_except body handler).
Proof.
  intros Hh st. unfold try_except.
  destruct (body st) as [[a|e] st1]; [now exists a | apply Hh].
Qed.

Lemma never_raises_for_each {A : Type} (xs : list A) (body : A -> M X unit) :
  (forall x, never_raises X (body x)) -> never_raises X (for_each xs body).
Proof.
  intro Hb. induction xs as [|x xs IH]; simpl.
  - apply never_raises_ret.
  - apply never_raises_bind; [apply Hb | intros _; apply IH].
Qed.

Lemma for_each_cons {A : Type} (x : A) (xs : list A) (body : A -> M X unit) (st : State X) :
  for_each (x :: xs) body st
  = match body x st with
    | (Ok _, st1) => for_each xs body st1
    | (Raise e, st1) => (Raise e, st1)
    end.
Proof. reflexivity. Qed.

End Running.

(** ** Formatting documents and assembling the prompt *)

(** C9: with no retrieved document [format_docs] returns the empty string,
    prompt assembly then succeeds with an empty Context field, and for every
    list of documents [format_docs] is the page contents joined by a blank
    line (in both scripts). *)
Theorem format_docs_joins_page_contents :
  (FixRagChain.format_docs [] = "" /\ ImprovedRagDebug.format_docs [] = "")
  /\ (forall question : string,
        prompt_format FixRagChain.prompt
                      [("context", FixRagChain.format_docs []); ("question", question)]
        = Ok (fixed_instructions ++ "Context: " ++ nl ++ nl ++ "Question: " ++ question
                                 ++ nl ++ nl ++ "Answer:")
        /\ prompt_format ImprovedRagDebug.create_improved_prompt
                         [("context", ImprovedRagDebug.format_docs []); ("question", question)]
           = Ok (improved_instructions ++ "Context: " ++ nl ++ nl ++ "Question: " ++ question
                                       ++ nl ++ nl ++ "Answer:"))
  /\ (forall docs : list Document,
        FixRagChain.format_docs docs = separated_by (nl ++ nl) (map page_content docs)
        /\ ImprovedRagDebug.format_docs docs = separated_by (nl ++ nl) (map page_content docs)).
Proof.
  split; [split; reflexivity|]. split.
  - intro question. split.
    + now rewrite fixed_prompt_filled.
    + now rewrite improved_prompt_filled.
  - intro docs. split; apply join_separated_by.
Qed.

Lemma format_docs_concat (docs : list Document) :
  FixRagChain.format_docs docs = String.concat (nl ++ nl) (map page_content docs)
  /\ ImprovedRagDebug.format_docs docs = String.concat (nl ++ nl) (map page_content docs).
Proof. split; apply join_concat. Qed.


(** ** The chain *)

Section Chain.

Variable X : Externals.

(** What invoking a chain leaves in the trace, for a template that fills in
    to [text]: the retriever is asked first; if it answers, the model is
    called with the filled-in prompt. *)
Lemma chain_run (p : PromptTemplate) (text : string -> string -> string)
      (retriever : Retriever (handles X)) (llm : LLM (handles X))
      (question : string) (st : State X) :
  (forall context q, prompt_format p [("context", context); ("question", q)]
                     = Ok (text context q)) ->
  exists rd : Result (list Document),
    match rd with
    | Ok docs =>
        exists rm : Result Message,
          trace (snd (ImprovedRagDebug.rag_chain X retriever llm p question st))
          = (trace st ++ [Called (retriever_invoke retriever question) (Ok docs);
                          Called (llm_invoke llm
                                    (text (ImprovedRagDebug.format_docs docs) question)) rm])%list
    | Raise e =>
        trace (snd (ImprovedRagDebug.rag_chain X retriever llm p question st))
        = (trace st ++ [Called (retriever_invoke retriever question) (Raise e)])%list
    end.
Proof.
  intro filled.
  unfold ImprovedRagDebug.rag_chain.
  cbv [pipe RunnableParallel RunnablePassthrough RunnableLambda retriever_step
       prompt_step llm_step StrOutputParser bind call ret].
  destruct (respond X _ (retriever_invoke retriever question) (world st)) as [[docs|e] w1].
  - exists (Ok docs). rewrite filled. cbv [lift ret].
    cbn [world trace].
    destruct (respond X _ (llm_invoke llm _) w1) as [[m|e] w2];
      eexists; cbn [snd trace]; rewrite <- app_assoc; reflexivity.
  - exists (Raise e). reflexivity.
Qed.

Lemma fixed_chain_is_rag_chain (retriever : Retriever (handles X)) (llm : LLM (handles X)) :
  FixRagChain.fixed_rag_chain X retriever llm
  = ImprovedRagDebug.rag_chain X retriever llm FixRagChain.prompt.
Proof. reflexivity. Qed.

End Chain.

(** C10: in both chains the caller's question is, unchanged, the query the
    retriever is invoked with and the text substituted in the template's
    question slot of the prompt the model is called with. *)
Theorem question_flows_unchanged :
  forall (X : Externals) (retriever : Retriever (handles X)) (llm : LLM (handles X))
         (question : string) (st : State X),
    (exists rd : Result (list Document),
        match rd with
        | Ok docs =>
            exists rm : Result Message,
              trace (snd (FixRagChain.fixed_rag_chain X retriever llm question st))
              = (trace st ++
                 [Called (retriever_invoke retriever question) (Ok docs);
                  Called (llm_invoke llm
                            (fixed_instructions ++
                             "Context: " ++ FixRagChain.format_docs docs ++ nl ++ nl ++
                             "Question: " ++ question ++ nl ++ nl ++
                             "Answer:")) rm])%list
        | Raise e =>
            trace (snd (FixRagChain.fixed_rag_chain X retriever llm question st))
            = (trace st ++ [Called (retriever_invoke retriever question) (Raise e)])%list
        end)
    /\ (exists rd : Result (list Document),
           match rd with
           | Ok docs =>
               exists rm : Result Message,
                 trace (snd (ImprovedRagDebug.rag_chain
                               X retriever llm ImprovedRagDebug.create_improved_prompt
                               question st))
                 = (trace st ++
                    [Called (retriever_invoke retriever question) (Ok docs);
                     Called (llm_invoke llm
                               (improved_instructions ++
                                "Context: " ++ ImprovedRagDebug.format_docs docs ++ nl ++ nl ++
                                "Question: " ++ question ++ nl ++ nl ++
                                "Answer:")) rm])%list
           | Raise e =>
               trace (snd (ImprovedRagDebug.rag_chain
                             X retriever llm ImprovedRagDebug.create_improved_prompt
                             question st))
               = (trace st ++ [Called (retriever_invoke retriever question) (Raise e)])%list
           end).
Proof.
  intros X retriever llm question st. split.
  - rewrite fixed_chain_is_rag_chain.
    exact (chain_run X FixRagChain.prompt fixed_prompt_text retriever llm question st
                     fixed_prompt_filled).
  - exact (chain_run X ImprovedRagDebug.create_improved_prompt improved_prompt_text
                     retriever llm question st improved_prompt_filled).
Qed.

(** ** Proof steps for runs *)

Ltac run_monad :=
  cbv [pipe RunnableParallel RunnablePassthrough RunnableLambda retriever_step
       prompt_step llm_step StrOutputParser bind call ret print try_except lift raise].

Ltac next_call :=
  match goal with
  | |- context [respond ?X ?T ?c ?w] =>
      let w' := fresh "w" in
      destruct (respond X T c w) as [[?|?] w']
  end.

Ltac trace_shape :=
  cbn [snd fst trace world]; rewrite <- ?app_assoc; cbn [app]; reflexivity.

Ltac shape_step :=
  first
    [ apply appends_only_bind; [|intro]
    | apply appends_only_print; reflexivity
    | apply appends_only_call; intro; reflexivity
    | apply appends_only_ret
    | apply appends_only_lift
    | apply appends_only_try_except; [|intro]
    | apply appends_only_for_each; intro
    | match goal with
      | |- appends_only _ _ (match ?x with _ => _ end) => destruct x
      | |- appends_only _ _ (let (_, _) := ?x in _) => destruct x
      end ].

Ltac shape := repeat shape_step.

(** ** The question loop of fix_rag_chain.py *)

Section FixLoop.

Variable X : Externals.

Lemma fix_question_never_raises (chain : Runnable X string string)
      (vdb : VectorStore (handles X)) (question : string) :
  never_raises X (FixRagChain.test_question X chain vdb question).
Proof.
  unfold FixRagChain.test_question.
  repeat (apply never_raises_bind; [|intros _]);
    try apply never_raises_print.
  apply never_raises_try_except. intro e. apply never_raises_print.
Qed.

(** One turn of the loop announces the question and then reports either an
    answer or an error, never both, never neither. *)
Lemma fix_question_reported (retriever : Retriever (handles X)) (llm : LLM (handles X))
      (vdb : VectorStore (handles X)) (question : string) (st : State X) :
  exists evs,
    trace (snd (FixRagChain.test_question X (FixRagChain.fixed_rag_chain X retriever llm)
                                          vdb question st))
    = (trace st ++ Printed (nl ++ "❓ Question: " ++ question) :: evs)%list
    /\ filter (printed_with (nl ++ "❓ Question: ")) evs = []
    /\ count_printed_with "💡 Answer: " evs + count_printed_with "❌ Error: " evs = 1.
Proof.
  unfold FixRagChain.test_question. rewrite fixed_chain_is_rag_chain.
  unfold ImprovedRagDebug.rag_chain. run_monad.
  cbn [world trace].
  repeat (next_call; rewrite ?fixed_prompt_filled; cbn [world trace]).
  all: eexists; split; [trace_shape|split; vm_compute; reflexivity].
Qed.

Lemma announced_is_announcement (q : string) :
  @printed_with (handles X) (nl ++ "❓ Question: ") (Printed (nl ++ "❓ Question: " ++ q)) = true.
Proof. reflexivity. Qed.

Lemma announced_is_no_answer (q : string) :
  @printed_with (handles X) "💡 Answer: " (Printed (nl ++ "❓ Question: " ++ q)) = false.
Proof. reflexivity. Qed.

Lemma announced_is_no_error (q : string) :
  @printed_with (handles X) "❌ Error: " (Printed (nl ++ "❓ Question: " ++ q)) = false.
Proof. reflexivity. Qed.

(** The loop visits every question, in order, whatever fails on the way. *)
Lemma fix_loop_visits_every_question (retriever : Retriever (handles X))
      (llm : LLM (handles X)) (vdb : VectorStore (handles X))
      (questions : list string) (st : State X) :
  fst (for_each questions
                (FixRagChain.test_question X (FixRagChain.fixed_rag_chain X retriever llm) vdb)
                st) = Ok tt
  /\ exists evs,
      trace (snd (for_each questions
                    (FixRagChain.test_question X (FixRagChain.fixed_rag_chain X retriever llm) vdb)
                    st))
      = (trace st ++ evs)%list
      /\ filter (printed_with (nl ++ "❓ Question: ")) evs
         = map (fun q => Printed (nl ++ "❓ Question: " ++ q)) questions
      /\ count_printed_with "💡 Answer: " evs + count_printed_with "❌ Error: " evs
         = List.length questions.
Proof.
  revert st. induction questions as [|q qs IH]; intro st.
  - split; [reflexivity|]. exists []. simpl. now rewrite app_nil_r.
  - rewrite for_each_cons.
    destruct (fix_question_never_raises (FixRagChain.fixed_rag_chain X retriever llm) vdb q st)
      as ([] & R).
    destruct (fix_question_reported retriever llm vdb q st) as (evs & T & F & C).
    destruct (FixRagChain.test_question X _ vdb q st) as [[[]|e] st1];
      cbn [fst snd] in *; [|discriminate].
    destruct (IH st1) as (R' & evs' & T' & F' & C').
    split; [exact R'|].
    exists (Printed (nl ++ "❓ Question: " ++ q) :: evs ++ evs')%list.
    split; [|split].
    + rewrite T', T, <- app_assoc. reflexivity.
    + cbn [filter]. rewrite announced_is_announcement.
      rewrite filter_app, F, F'. reflexivity.
    + unfold count_printed_with in *. cbn [filter].
      rewrite announced_is_no_answer, announced_is_no_error.
      rewrite !filter_app, !length_app. cbn [List.length]. lia.
Qed.

End FixLoop.

(** ** Failures while a question is processed *)

(** C1: every exception raised by retrieval or generation for a question
    should be caught in the question loop, printed, and the loop should go
    on to the next question.  fix_rag_chain.py does so; improved_rag_debug.py
    does not: with a working setup and an unreachable retrieval service, its
    run ends with the exception during the first of its five questions and
    prints no error line, while fix_rag_chain.py in the same world returns
    normally after announcing its three questions and printing three error
    lines. *)
Theorem debug_script_aborts_when_retrieval_fails :
  (fst (ImprovedRagDebug.main Toy.offline (Toy.start Toy.offline tt))
   = Raise Toy.ConnectionError
   /\ count_printed_with "Testing: "
        (trace (snd (ImprovedRagDebug.main Toy.offline (Toy.start Toy.offline tt)))) = 1
   /\ count_printed_with "ERROR: "
        (trace (snd (ImprovedRagDebug.main Toy.offline (Toy.start Toy.offline tt)))) = 0)
  /\ (fst (FixRagChain.main Toy.offline (Toy.start Toy.offline tt)) = Ok tt
      /\ count_printed_with (nl ++ "❓ Question: ")
           (trace (snd (FixRagChain.main Toy.offline (Toy.start Toy.offline tt)))) = 3
      /\ count_printed_with "❌ Error: "
           (trace (snd (FixRagChain.main Toy.offline (Toy.start Toy.offline tt)))) = 3).
Proof. vm_compute. repeat split. Qed.

(** In improved_rag_debug.py only the final chain invocation is guarded: a
    failure of the first retrieval of [debug_rag_chain] leaves the function,
    in every world. *)
Lemma debug_first_retrieval_unguarded (X : Externals) (question : string)
      (vectordb : VectorStore (handles X)) (llm : LLM (handles X))
      (prompt : PromptTemplate) (st : State X)
      (r : Retriever (handles X)) (w1 w2 : World X) (e : Exn) :
  respond X _ (as_retriever vectordb [("k", VInt 3); ("search_type", VStr "similarity")])
          (world st) = (Ok r, w1) ->
  respond X _ (get_relevant_documents r question) w1 = (Raise e, w2) ->
  fst (ImprovedRagDebug.debug_rag_chain X question vectordb llm prompt st) = Raise e.
Proof.
  intros A G. unfold ImprovedRagDebug.debug_rag_chain.
  cbv [bind print]. cbn [world trace].
  cbv [ImprovedRagDebug.retriever_configs enumerate]. cbn [List.length seq combine for_each].
  cbv [ImprovedRagDebug.try_config bind print call]. cbn [world trace].
  rewrite A. cbv beta iota. cbn [world trace]. rewrite G. reflexivity.
Qed.

(** A failure that leaves [debug_rag_chain] ends the question loop. *)
Lemma debug_loop_stops_at_first_failure (X : Externals) (vectordb : VectorStore (handles X))
      (llm : LLM (handles X)) (prompt : PromptTemplate) (q : string) (qs : list string)
      (st : State X) (e : Exn) :
  fst (ImprovedRagDebug.debug_rag_chain
         X q vectordb llm prompt
         (mkState (world st)
                  (trace st ++ [Printed (nl ++ str_mul "=" 60); Printed ("Testing: " ++ q);
                                Printed (str_mul "=" 60)])%list)) = Raise e ->
  fst (for_each (q :: qs) (ImprovedRagDebug.test_question X vectordb llm prompt) st) = Raise e.
Proof.
  intro D. rewrite for_each_cons. unfold ImprovedRagDebug.test_question.
  cbv [bind print ret]. cbn [world trace]. rewrite <- !app_assoc. cbn [app].
  destruct (ImprovedRagDebug.debug_rag_chain X q vectordb llm prompt _) as [[a|e'] st1];
    cbn [fst] in *; [discriminate | now inversion D].
Qed.

(** ** Setup comes first *)

Section Setup.

Variable X : Externals.

Lemma fix_setup_processes_no_question :
  appends_only X no_question_activity (FixRagChain.fix_rag_chain X).
Proof. unfold FixRagChain.fix_rag_chain. shape. Qed.

Lemma debug_setup_processes_no_question :
  appends_only X no_question_activity (ImprovedRagDebug.setup_components X).
Proof. unfold ImprovedRagDebug.setup_components. shape. Qed.

Lemma rag_chain_makes_no_setup_call (retriever : Retriever (handles X))
      (llm : LLM (handles X)) (prompt : PromptTemplate) (question : string) :
  appends_only X not_setup_call (ImprovedRagDebug.rag_chain X retriever llm prompt question).
Proof.
  unfold ImprovedRagDebug.rag_chain.
  cbv [pipe RunnableParallel RunnablePassthrough RunnableLambda retriever_step
       prompt_step llm_step StrOutputParser].
  shape.
Qed.

(** What [fix_rag_chain] returns, when it returns, is the chain over the
    retriever and the model it has just built. *)
Lemma fix_rag_chain_returns (st st1 : State X) (chain : Runnable X string string)
      (vdb : VectorStore (handles X)) :
  FixRagChain.fix_rag_chain X st = (Ok (chain, vdb), st1) ->
  exists retriever llm, chain = FixRagChain.fixed_rag_chain X retriever llm.
Proof.
  unfold FixRagChain.fix_rag_chain. cbv [bind print call ret]. cbn [world trace].
  repeat (next_call; cbn [world trace]); intro E; try discriminate.
  inversion E. eauto.
Qed.

Lemma fix_questions_make_no_setup_call (retriever : Retriever (handles X))
      (llm : LLM (handles X)) (vdb : VectorStore (handles X)) :
  appends_only X not_setup_call
    (print (nl ++ "🧪 Testing Fixed RAG Chain...") ;;
     print (str_mul "=" 60) ;;
     for_each FixRagChain.test_questions
              (FixRagChain.test_question X (FixRagChain.fixed_rag_chain X retriever llm) vdb)).
Proof.
  shape.
Qed.

Lemma debug_questions_make_no_setup_call (vdb : VectorStore (handles X))
      (llm : LLM (handles X)) (prompt : PromptTemplate) :
  appends_only X not_setup_call
    (print (nl ++ "Testing different questions...") ;;
     for_each ImprovedRagDebug.test_questions
              (ImprovedRagDebug.test_question X vdb llm prompt)).
Proof.
  shape. all: unfold ImprovedRagDebug.show_document; shape.
Qed.

End Setup.

(** Two runs that end during setup, before any question: without the API key
    the model client cannot be built, and with an empty data directory the
    index cannot. *)
Lemma setup_failures_end_the_run :
  (fst (FixRagChain.main Toy.no_credentials (Toy.start Toy.no_credentials tt))
   = Raise Toy.GroqError
   /\ fst (ImprovedRagDebug.main Toy.no_credentials (Toy.start Toy.no_credentials tt))
      = Raise Toy.GroqError
   /\ forallb no_question_activity
        (trace (snd (FixRagChain.main Toy.no_credentials
                       (Toy.start Toy.no_credentials tt)))) = true
   /\ forallb no_question_activity
        (trace (snd (ImprovedRagDebug.main Toy.no_credentials
                       (Toy.start Toy.no_credentials tt)))) = true)
  /\ (fst (FixRagChain.main Toy.empty_directory (Toy.start Toy.empty_directory tt))
      = Raise Toy.IndexError
      /\ fst (ImprovedRagDebug.main Toy.empty_directory (Toy.start Toy.empty_directory tt))
         = Raise Toy.IndexError
      /\ forallb no_question_activity
           (trace (snd (FixRagChain.main Toy.empty_directory
                          (Toy.start Toy.empty_directory tt)))) = true
      /\ forallb no_question_activity
           (trace (snd (ImprovedRagDebug.main Toy.empty_directory
                          (Toy.start Toy.empty_directory tt)))) = true).
Proof. vm_compute. repeat split. Qed.

(** ** The debug routine, step by step *)

Section Debug.

Variable X : Externals.

Lemma print_trace_inv (text : string) (st st1 : State X) (r : Result unit) :
  print text st = (r, st1) -> trace st1 = (trace st ++ [Printed text])%list.
Proof. rewrite print_run. intro E. now inversion E. Qed.

Lemma appends_only_inv {A : Type} (keep : Event (handles X) -> bool) (m : M X A)
      (st st1 : State X) (r : Result A) :
  appends_only X keep m -> m st = (r, st1) ->
  exists evs, trace st1 = (trace st ++ evs)%list /\ forallb keep evs = true.
Proof. intros Hm E. destruct (Hm st) as (evs & T & K). rewrite E in T. now exists evs. Qed.

Lemma try_config_ok (question : string) (vectordb : VectorStore (handles X))
      (i : nat) (config : Kwargs) (st st1 : State X) (u : unit) :
  ImprovedRagDebug.try_config X question vectordb (i, config) st = (Ok u, st1) ->
  exists r docs,
    trace st1 = (trace st ++ config_report vectordb question (i + 1) config r docs)%list.
Proof.
  unfold ImprovedRagDebug.try_config. cbv [bind print call ret]. cbn [world trace].
  destruct (respond X _ (as_retriever vectordb config) (world st)) as [[r|e] w1];
    cbn [world trace]; [|discriminate].
  destruct (respond X _ (get_relevant_documents r question) w1) as [[docs|e] w2];
    cbn [world trace]; [|discriminate].
  intro E. exists r, docs.
  assert (T : trace st1
              = (((((trace st ++
                    [Printed (nl ++ "Retriever config " ++ str_of_nat (i + 1) ++ ": "
                                 ++ repr (VDict config))]) ++
                   [Called (as_retriever vectordb config) (Ok r)]) ++
                  [Called (get_relevant_documents r question) (Ok docs)]) ++
                 [Printed ("  Retrieved " ++ str_of_nat (List.length docs) ++ " documents")])
                ++ preview docs)%list).
  { destruct docs as [|d ds];
      apply (f_equal (fun p => trace (snd p))) in E; cbn [snd trace] in E;
      rewrite <- E; cbn [preview];
      [now rewrite app_nil_r | now rewrite <- !app_assoc]. }
  rewrite T. unfold config_report. rewrite <- !app_assoc. reflexivity.
Qed.

Lemma answer_trace (rb : Retriever (handles X)) (llm : LLM (handles X))
      (prompt : PromptTemplate) (question : string) (st : State X) :
  exists rr tail,
    trace (snd (try_except
                  (answer <- ImprovedRagDebug.rag_chain X rb llm prompt question ;;
                   print "SUCCESS! Generated answer:" ;;
                   print answer ;;
                   ret (Some answer))
                  (fun e => print ("ERROR: " ++ exn_str e) ;; ret None) st))
    = (trace st ++ Called (retriever_invoke rb question) rr :: tail)%list
    /\ forallb no_retrieval_call tail = true.
Proof.
  unfold ImprovedRagDebug.rag_chain. run_monad. cbn [world trace].
  next_call; cbn [world trace].
  - destruct (prompt_format prompt _) as [text|e]; cbn [world trace].
    + next_call; do 2 eexists; (split; [trace_shape|reflexivity]).
    + do 2 eexists; (split; [trace_shape|reflexivity]).
  - do 2 eexists; (split; [trace_shape|reflexivity]).
Qed.

End Debug.

Ltac bind_inv H name :=
  let a := fresh "a" in
  let s := fresh "s" in
  apply bind_ok_inv in H as (a & s & name & H).

Ltac print_inv H name := bind_inv H name; apply print_trace_inv in name.

(** C8 (as the code has it): whenever the step-by-step routine returns, it
    has, for the question it was given and in this order, announced, built
    and queried a retriever for each of the four hard-coded configurations
    (similarity with k=3, k=5 and k=7, then mmr with k=3), printed the number
    of documents each returned and, for a result that is not empty, a preview
    and the source of its first document; only then it built and queried the
    similarity retriever with k=5, printed what it found, and invoked with the
    question the chain over that same retriever, which makes the last
    retrieval of the routine. *)
Theorem debug_routine_tries_four_configurations :
  forall (X : Externals) (question : string) (vectordb : VectorStore (handles X)) (llm : LLM (handles X))
         (prompt : PromptTemplate) (st st' : State X) (answer : option string),
    ImprovedRagDebug.debug_rag_chain X question vectordb llm prompt st = (Ok answer, st') ->
    exists r1 d1 r2 d2 r3 d3 r4 d4 rb db shown rr tail,
      trace st'
      = (trace st
         ++ banner question
         ++ config_report vectordb question 1
              [("k", VInt 3); ("search_type", VStr "similarity")] r1 d1
         ++ config_report vectordb question 2
              [("k", VInt 5); ("search_type", VStr "similarity")] r2 d2
         ++ config_report vectordb question 3
              [("k", VInt 7); ("search_type", VStr "similarity")] r3 d3
         ++ config_report vectordb question 4
              [("k", VInt 3); ("search_type", VStr "mmr")] r4 d4
         ++ best_retrieval vectordb question rb db
         ++ shown
         ++ Called (retriever_invoke rb question) rr :: tail)%list
      /\ forallb is_printed shown = true
      /\ forallb no_retrieval_call tail = true.
Proof.
  intros X question vectordb llm prompt st st' answer H.
  unfold ImprovedRagDebug.debug_rag_chain in H.
  print_inv H P1. print_inv H P2. print_inv H P3. print_inv H P4.
  print_inv H P5. print_inv H P6.
  bind_inv H L.
  cbv [ImprovedRagDebug.retriever_configs enumerate] in L.
  cbn [List.length seq combine for_each] in L.
  bind_inv L C1. apply (try_config_ok X) in C1 as (r1 & d1 & C1).
  bind_inv L C2. apply (try_config_ok X) in C2 as (r2 & d2 & C2).
  bind_inv L C3. apply (try_config_ok X) in C3 as (r3 & d3 & C3).
  bind_inv L C4. apply (try_config_ok X) in C4 as (r4 & d4 & C4).
  apply (f_equal (fun p => trace (snd p))) in L. cbn [ret snd] in L.
  print_inv H P7. print_inv H P8.
  bind_inv H A. apply (call_ok_inv X) in A.
  match type of A with context [Ok ?r] => rename r into rb end.
  bind_inv H G. apply (call_ok_inv X) in G.
  match type of G with context [Ok ?d] => rename d into db end.
  print_inv H P9.
  bind_inv H SH.
  apply (appends_only_inv X is_printed) in SH as (shown & SH & KS);
    [|apply appends_only_for_each; intros []; unfold ImprovedRagDebug.show_document; shape].
  print_inv H P10. print_inv H P11. print_inv H P12. print_inv H P13.
  print_inv H P14. print_inv H P15.
  match type of H with
  | try_except _ _ ?s = _ =>
      destruct (answer_trace X rb llm prompt question s) as (rr & tail & T & KT)
  end.
  rewrite H in T. cbn [snd] in T.
  exists r1, d1, r2, d2, r3, d3, r4, d4, rb, db.
  exists (shown ++
          [Printed (nl ++ "3. TESTING PROMPT FORMATTING");
           Printed (str_mul "-" 40);
           Printed ("Formatted context length: "
                    ++ str_of_nat (String.length (ImprovedRagDebug.format_docs db))
                    ++ " characters");
           Printed ("Context preview: "
                    ++ slice_to 500 (ImprovedRagDebug.format_docs db) ++ "...");
           Printed (nl ++ "4. TESTING LLM RESPONSE");
           Printed (str_mul "-" 40)])%list.
  exists rr, tail.
  split; [|split; [|exact KT]].
  - rewrite T, P15, P14, P13, P12, P11, P10, SH, P9, G, A, P8, P7, <- L,
      C4, C3, C2, C1, P6, P5, P4, P3, P2, P1.
    unfold banner, best_retrieval, similarity_k5.
    rewrite <- !app_assoc. reflexivity.
  - rewrite forallb_app, KS. reflexivity.
Qed.

Lemma debug_routine_tries_four_configurations_witness :
  Toy.debug_run true [Toy.page] true 4
  = (Ok (Some Toy.answer), snd (Toy.debug_run true [Toy.page] true 4))
  /\ exists r1 d1 r2 d2 r3 d3 r4 d4 rb db shown rr tail,
      trace (snd (Toy.debug_run true [Toy.page] true 4))
      = ([] ++ banner "What is LoRA?"
         ++ config_report (H := Toy.toy_handles) [Toy.page] "What is LoRA?" 1
              [("k", VInt 3); ("search_type", VStr "similarity")] r1 d1
         ++ config_report (H := Toy.toy_handles) [Toy.page] "What is LoRA?" 2
              [("k", VInt 5); ("search_type", VStr "similarity")] r2 d2
         ++ config_report (H := Toy.toy_handles) [Toy.page] "What is LoRA?" 3
              [("k", VInt 7); ("search_type", VStr "similarity")] r3 d3
         ++ config_report (H := Toy.toy_handles) [Toy.page] "What is LoRA?" 4
              [("k", VInt 3); ("search_type", VStr "mmr")] r4 d4
         ++ best_retrieval (H := Toy.toy_handles) [Toy.page] "What is LoRA?" rb db
         ++ shown
         ++ Called (retriever_invoke rb "What is LoRA?") rr :: tail)%list
      /\ forallb is_printed shown = true
      /\ forallb no_retrieval_call tail = true.
Proof.
  split.
  - vm_compute. reflexivity.
  - apply (debug_routine_tries_four_configurations
             Toy.healthy "What is LoRA?" [Toy.page] tt
             ImprovedRagDebug.create_improved_prompt
             (Toy.start Toy.healthy tt)
             (snd (Toy.debug_run true [Toy.page] true 4))
             (Some Toy.answer)).
    vm_compute. reflexivity.
Defined.

(** C8 as stated fails where a query finds nothing: the routine returns
    after querying all four configurations and printing four result counts,
    and prints no preview at all. *)
Lemma debug_routine_prints_no_preview_without_hits :
  fst (Toy.debug_run true [Toy.page] true 0) = Ok (Some Toy.answer)
  /\ count_printed_with "  Retrieved " (trace (snd (Toy.debug_run true [Toy.page] true 0))) = 4
  /\ count_printed_with "  First doc preview: "
       (trace (snd (Toy.debug_run true [Toy.page] true 0))) = 0.
Proof. vm_compute. repeat split. Qed.

(** * Further properties *)

(** ** Where the scripts stop *)

Section Stopping.

Variable X : Externals.

Lemma bind_raise_inv {A B : Type} (m : M X A) (k : A -> M X B) (st st' : State X) (e : Exn) :
  bind m k st = (Raise e, st') ->
  m st = (Raise e, st') \/ exists a st1, m st = (Ok a, st1) /\ k a st1 = (Raise e, st').
Proof.
  unfold bind. destruct (m st) as [[a|e'] st1]; intro E.
  - right. now exists a, st1.
  - left. now inversion E.
Qed.

Lemma stops_at_never {A : Type} (P : Exn -> Event (handles X) -> Prop) (m : M X A) :
  never_raises X m -> stops_at X P m.
Proof.
  intros N st e st' E. destruct (N st) as (a & R). rewrite E in R. discriminate.
Qed.

Lemma stops_at_ret {A : Type} (P : Exn -> Event (handles X) -> Prop) (a : A) :
  stops_at X P (ret a).
Proof. intros st e st' E. discriminate. Qed.

Lemma stops_at_print (P : Exn -> Event (handles X) -> Prop) (text : string) :
  stops_at X P (print text).
Proof. intros st e st' E. discriminate. Qed.

Lemma stops_at_call {T : Type} (P : Exn -> Event (handles X) -> Prop)
      (c : Call (handles X) T) :
  (forall e, P e (Called c (Raise e))) -> stops_at X P (call c).
Proof.
  intros Pc st e st' E. exists (trace st), (Called c (Raise e)). split; [|apply Pc].
  generalize (call_trace X c st). now rewrite E.
Qed.

Lemma stops_at_bind {A B : Type} (P : Exn -> Event (handles X) -> Prop)
      (m : M X A) (k : A -> M X B) :
  stops_at X P m -> (forall a, stops_at X P (k a)) -> stops_at X P (bind m k).
Proof.
  intros Hm Hk st e st' E. apply bind_raise_inv in E as [E|(a & st1 & _ & E)].
  - now apply (Hm st).
  - now apply (Hk a st1).
Qed.

Lemma stops_at_for_each {A : Type} (P : Exn -> Event (handles X) -> Prop)
      (xs : list A) (body : A -> M X unit) :
  (forall x, stops_at X P (body x)) -> stops_at X P (for_each xs body).
Proof.
  intro Hb. induction xs as [|x xs IH]; simpl.
  - apply stops_at_ret.
  - apply stops_at_bind; [apply Hb | intros _; apply IH].
Qed.

End Stopping.

Ltac stop_step :=
  first
    [ apply stops_at_bind; [|intro]
    | apply stops_at_print
    | apply stops_at_ret
    | apply stops_at_call; intro; first [ left; now eauto | right; now eauto
                                         | split; [now repeat eexists | reflexivity] ]
    | apply stops_at_for_each; intro
    | apply stops_at_never; apply never_raises_try_except; intro;
      repeat (apply never_raises_bind; [|intro]);
      first [apply never_raises_print | apply never_raises_ret]
    | match goal with
      | |- stops_at _ _ (match ?x with _ => _ end) => destruct x
      | |- stops_at _ _ (let (_, _) := ?x in _) => destruct x
      end ].

Ltac stops := repeat stop_step.

Lemma debug_rag_chain_stops_at_retrieval (X : Externals) (question : string)
      (vectordb : VectorStore (handles X)) (llm : LLM (handles X)) (prompt : PromptTemplate) :
  stops_at X failed_retrieval
           (ImprovedRagDebug.debug_rag_chain X question vectordb llm prompt).
Proof.
  unfold ImprovedRagDebug.debug_rag_chain. stops.
  all: unfold ImprovedRagDebug.show_document; stops.
Qed.

Lemma fix_main_stops_before_questions (X : Externals) :
  stops_at X failed_before_questions (FixRagChain.main X).
Proof.
  unfold FixRagChain.main, FixRagChain.test_fixed_rag, FixRagChain.fix_rag_chain. stops.
Qed.

Lemma debug_main_stops_outside_chain (X : Externals) :
  stops_at X failed_outside_chain (ImprovedRagDebug.main X).
Proof.
  unfold ImprovedRagDebug.main, ImprovedRagDebug.test_different_questions,
    ImprovedRagDebug.setup_components.
  stops.
  all: unfold ImprovedRagDebug.show_document; stops.
Qed.

(** ** Failing only with events of one kind *)

Section Within.

Variable X : Externals.

Lemma fails_within_never {A : Type} (keep : Event (handles X) -> bool) (m : M X A) :
  never_raises X m -> fails_within X keep m.
Proof.
  intros N st e st' E. destruct (N st) as (a & R). rewrite E in R. discriminate.
Qed.

Lemma fails_within_print (keep : Event (handles X) -> bool) (text : string) :
  fails_within X keep (print text).
Proof. intros st e st' E. discriminate. Qed.

Lemma fails_within_ret {A : Type} (keep : Event (handles X) -> bool) (a : A) :
  fails_within X keep (ret a).
Proof. intros st e st' E. discriminate. Qed.

Lemma fails_within_call {T : Type} (keep : Event (handles X) -> bool)
      (c : Call (handles X) T) :
  (forall r, keep (Called c r) = true) -> fails_within X keep (call c).
Proof.
  intros K st e st' E. exists [], (Called c (Raise e)). split; [|split].
  - generalize (call_trace X c st). now rewrite E.
  - now exists T, c.
  - cbn. now rewrite K.
Qed.

Lemma fails_within_bind {A B : Type} (keep : Event (handles X) -> bool)
      (m : M X A) (k : A -> M X B) :
  appends_only X keep m -> fails_within X keep m ->
  (forall a, fails_within X keep (k a)) ->
  fails_within X keep (bind m k).
Proof.
  intros Am Fm Fk st e st' E. apply bind_raise_inv in E as [E|(a & st1 & E1 & E)].
  - now apply (Fm st).
  - destruct (Am st) as (evs1 & T1 & K1). rewrite E1 in T1. cbn [snd] in T1.
    destruct (Fk a st1 e st' E) as (evs & ev & T & F & K).
    exists (evs1 ++ evs)%list, ev. split; [|split; [exact F|]].
    + now rewrite T, T1, <- !app_assoc.
    + rewrite <- app_assoc, forallb_app, K1. exact K.
Qed.

End Within.

Ltac within_step :=
  first
    [ apply fails_within_bind; [shape | | intro]
    | apply fails_within_print
    | apply fails_within_ret
    | apply fails_within_call; intro; reflexivity ].

Ltac within := repeat within_step.

Section SetupFailures.

Variable X : Externals.

Lemma fix_setup_fails_within :
  fails_within X no_question_activity (FixRagChain.fix_rag_chain X).
Proof. unfold FixRagChain.fix_rag_chain. within. Qed.

Lemma debug_setup_fails_within :
  fails_within X no_question_activity (ImprovedRagDebug.setup_components X).
Proof. unfold ImprovedRagDebug.setup_components. within. Qed.

End SetupFailures.

Ltac in_new := cbn [In]; repeat first [left; reflexivity | right].

Section SetupBuilds.

Variable X : Externals.

(** A setup that returns has built every component that depends on the
    configuration. *)
Lemma fix_setup_builds (st st1 : State X) (chain : Runnable X string string)
      (vdb : VectorStore (handles X)) :
  FixRagChain.fix_rag_chain X st = (Ok (chain, vdb), st1) ->
  exists new llm splitter cwd loader docs chunks embedding,
    trace st1 = (trace st ++ new)%list
    /\ forallb no_question_activity new = true
    /\ In (Called (ChatGroq [("model", VStr "llama3-8b-8192"); ("temperature", VFloat "0.1")])
                  (Ok llm)) new
    /\ In (Called (RecursiveCharacterTextSplitter
                     [("chunk_size", VInt 1000); ("chunk_overlap", VInt 200);
                      ("length_function", VRef "len")]) (Ok splitter)) new
    /\ In (Called getcwd (Ok cwd)) new
    /\ In (Called (DirectoryLoader (path_join (path_join cwd "notebook") "data")
                     [("glob", VStr "**/*.pdf"); ("loader_cls", VRef "PyPDFLoader")])
                  (Ok loader)) new
    /\ In (Called (load loader) (Ok docs)) new
    /\ In (Called (split_documents splitter docs) (Ok chunks)) new
    /\ In (Called (GoogleGenerativeAIEmbeddings [("model", VStr "models/embedding-001")])
                  (Ok embedding)) new
    /\ In (Called (FAISS_from_documents chunks embedding) (Ok vdb)) new.
Proof.
  unfold FixRagChain.fix_rag_chain. cbv [bind print call ret]. cbn [world trace].
  destruct (respond X _ (ChatGroq _) (world st)) as [[llm|e] w1];
    cbn [world trace]; [|discriminate].
  destruct (respond X _ (RecursiveCharacterTextSplitter _) w1) as [[splitter|e] w2];
    cbn [world trace]; [|discriminate].
  destruct (respond X _ getcwd w2) as [[cwd|e] w3]; cbn [world trace]; [|discriminate].
  destruct (respond X _ (DirectoryLoader _ _) w3) as [[loader|e] w4];
    cbn [world trace]; [|discriminate].
  destruct (respond X _ (load loader) w4) as [[docs|e] w5];
    cbn [world trace]; [|discriminate].
  destruct (respond X _ (split_documents splitter docs) w5) as [[chunks|e] w6];
    cbn [world trace]; [|discriminate].
  destruct (respond X _ (GoogleGenerativeAIEmbeddings _) w6) as [[embedding|e] w7];
    cbn [world trace]; [|discriminate].
  destruct (respond X _ (FAISS_from_documents chunks embedding) w7) as [[v|e] w8];
    cbn [world trace]; [|discriminate].
  destruct (respond X _ (as_retriever v _) w8) as [[retriever|e] w9];
    cbn [world trace]; [|discriminate].
  intro E. apply pair_equal_spec in E as [E <-].
  assert (Ev : v = vdb) by congruence. subst v. clear E.
  eexists. exists llm, splitter, cwd, loader, docs, chunks, embedding.
  split; [cbn [trace]; rewrite <- !app_assoc; cbn [app]; reflexivity|].
  split; [reflexivity|].
  repeat (split; [in_new|]). in_new.
Qed.

Lemma debug_setup_builds (st st1 : State X) (llm : LLM (handles X))
      (embedding : Embeddings (handles X)) (vdb : VectorStore (handles X))
      (split_docs : list Document) :
  ImprovedRagDebug.setup_components X st = (Ok (llm, embedding, vdb, split_docs), st1) ->
  exists new cwd loader docs splitter,
    trace st1 = (trace st ++ new)%list
    /\ forallb no_question_activity new = true
    /\ In (Called (ChatGroq [("model", VStr "llama3-8b-8192"); ("temperature", VFloat "0.1")])
                  (Ok llm)) new
    /\ In (Called (GoogleGenerativeAIEmbeddings [("model", VStr "models/embedding-001")])
                  (Ok embedding)) new
    /\ In (Called getcwd (Ok cwd)) new
    /\ In (Called (DirectoryLoader (path_join (path_join cwd "notebook") "data")
                     [("glob", VStr "**/*.pdf"); ("loader_cls", VRef "PyPDFLoader")])
                  (Ok loader)) new
    /\ In (Called (load loader) (Ok docs)) new
    /\ In (Called (RecursiveCharacterTextSplitter
                     [("chunk_size", VInt 1000); ("chunk_overlap", VInt 200);
                      ("length_function", VRef "len");
                      ("separators",
                       VList [VStr (nl ++ nl); VStr nl; VStr ". "; VStr " "; VStr ""])])
                  (Ok splitter)) new
    /\ In (Called (split_documents splitter docs) (Ok split_docs)) new
    /\ In (Called (FAISS_from_documents split_docs embedding) (Ok vdb)) new.
Proof.
  unfold ImprovedRagDebug.setup_components. cbv [bind print call ret]. cbn [world trace].
  destruct (respond X _ (ChatGroq _) (world st)) as [[l|e] w1];
    cbn [world trace]; [|discriminate].
  destruct (respond X _ (GoogleGenerativeAIEmbeddings _) w1) as [[em|e] w2];
    cbn [world trace]; [|discriminate].
  destruct (respond X _ getcwd w2) as [[cwd|e] w3]; cbn [world trace]; [|discriminate].
  destruct (respond X _ (DirectoryLoader _ _) w3) as [[loader|e] w4];
    cbn [world trace]; [|discriminate].
  destruct (respond X _ (load loader) w4) as [[docs|e] w5];
    cbn [world trace]; [|discriminate].
  destruct (respond X _ (RecursiveCharacterTextSplitter _) w5) as [[splitter|e] w6];
    cbn [world trace]; [|discriminate].
  destruct (respond X _ (split_documents splitter docs) w6) as [[chunks|e] w7];
    cbn [world trace]; [|discriminate].
  destruct (respond X _ (FAISS_from_documents chunks em) w7) as [[v|e] w8];
    cbn [world trace]; [|discriminate].
  intro E. apply pair_equal_spec in E as [E <-].
  assert (l = llm /\ em = embedding /\ v = vdb /\ chunks = split_docs) as (-> & -> & -> & ->)
    by (repeat split; congruence).
  clear E.
  eexists. exists cwd, loader, docs, splitter.
  split; [cbn [trace]; rewrite <- !app_assoc; cbn [app]; reflexivity|].
  split; [reflexivity|].
  repeat (split; [in_new|]). in_new.
Qed.

End SetupBuilds.



(** ** Where the scripts stop, continued *)

(** X1: when [debug_rag_chain] raises, the exception comes from building or
    directly querying a retriever in its steps 1 and 2, and that failed call
    is the last thing the routine did. *)
Theorem debug_rag_chain_raises_only_at_retrieval :
  forall (X : Externals) (question : string) (vectordb : VectorStore (handles X))
         (llm : LLM (handles X)) (prompt : PromptTemplate) (st st' : State X) (e : Exn),
    ImprovedRagDebug.debug_rag_chain X question vectordb llm prompt st = (Raise e, st') ->
    exists evs ev, trace st' = (evs ++ [ev])%list /\ failed_retrieval e ev.
Proof.
  intros X question vectordb llm prompt st st' e E.
  exact (debug_rag_chain_stops_at_retrieval X question vectordb llm prompt st e st' E).
Qed.

Lemma debug_rag_chain_raises_only_at_retrieval_witness :
  Toy.debug_run true [Toy.page] false 4
  = (Raise Toy.ConnectionError, snd (Toy.debug_run true [Toy.page] false 4))
  /\ exists evs ev,
      trace (snd (Toy.debug_run true [Toy.page] false 4)) = (evs ++ [ev])%list
      /\ failed_retrieval Toy.ConnectionError ev.
Proof.
  split.
  - vm_compute. reflexivity.
  - apply (debug_rag_chain_raises_only_at_retrieval
             Toy.offline "What is LoRA?" [Toy.page] tt
             ImprovedRagDebug.create_improved_prompt (Toy.start Toy.offline tt)).
    vm_compute. reflexivity.
Defined.

Lemma fix_main_fails_within (X : Externals) :
  fails_within X no_question_activity (FixRagChain.main X).
Proof.
  unfold FixRagChain.main, FixRagChain.test_fixed_rag.
  apply fails_within_bind; [shape | apply fails_within_call; intro; reflexivity | intros _].
  apply fails_within_bind;
    [apply fix_setup_processes_no_question | apply fix_setup_fails_within | intros [chain vdb]].
  apply fails_within_never.
  repeat (apply never_raises_bind; [apply never_raises_print | intros _]).
  apply never_raises_for_each. intro question. apply fix_question_never_raises.
Qed.

(** X2: fix_rag_chain.py run as a program can only end in an exception
    raised by a call made before the question loop (loading the environment
    or setting the components up): the run stops at that call, and up to it
    no question has been announced and nothing has been retrieved or
    generated. *)
Theorem fix_script_fails_only_before_questions :
  forall (X : Externals) (st st' : State X) (e : Exn),
    FixRagChain.main X st = (Raise e, st') ->
    exists evs ev,
      trace st' = (trace st ++ evs ++ [ev])%list
      /\ failed_call e ev
      /\ forallb no_question_activity (evs ++ [ev])%list = true.
Proof.
  intros X st st' e E. exact (fix_main_fails_within X st e st' E).
Qed.

Lemma fix_script_fails_only_before_questions_witness :
  Toy.fix_main_run Toy.no_credentials tt
  = (Raise Toy.GroqError, snd (Toy.fix_main_run Toy.no_credentials tt))
  /\ exists evs ev,
      trace (snd (Toy.fix_main_run Toy.no_credentials tt)) = ([] ++ evs ++ [ev])%list
      /\ failed_call Toy.GroqError ev
      /\ forallb no_question_activity (evs ++ [ev])%list = true.
Proof.
  split.
  - vm_compute. reflexivity.
  - apply (fix_script_fails_only_before_questions
             Toy.no_credentials (Toy.start Toy.no_credentials tt)).
    vm_compute. reflexivity.
Defined.

(** X3: improved_rag_debug.py run as a program can only end in an exception
    raised by a call outside the chain (environment, setup, or a retriever
    built or queried directly), and it stops at that call; a failure inside
    the chain never ends it. *)
Theorem debug_script_fails_only_outside_chain :
  forall (X : Externals) (st st' : State X) (e : Exn),
    ImprovedRagDebug.main X st = (Raise e, st') ->
    exists evs ev, trace st' = (evs ++ [ev])%list /\ failed_outside_chain e ev.
Proof.
  intros X st st' e E. exact (debug_main_stops_outside_chain X st e st' E).
Qed.

Lemma debug_script_fails_only_outside_chain_witness :
  Toy.debug_main_run Toy.offline tt
  = (Raise Toy.ConnectionError, snd (Toy.debug_main_run Toy.offline tt))
  /\ exists evs ev,
      trace (snd (Toy.debug_main_run Toy.offline tt)) = (evs ++ [ev])%list
      /\ failed_outside_chain Toy.ConnectionError ev.
Proof.
  split.
  - vm_compute. reflexivity.
  - apply (debug_script_fails_only_outside_chain Toy.offline (Toy.start Toy.offline tt)).
    vm_compute. reflexivity.
Defined.

(** ** What the debug routine returns *)

Lemma answer_result (X : Externals) (rb : Retriever (handles X)) (llm : LLM (handles X))
      (prompt : PromptTemplate) (question : string) (st st' : State X)
      (r : Result (option string)) :
  try_except
    (answer <- ImprovedRagDebug.rag_chain X rb llm prompt question ;;
     print "SUCCESS! Generated answer:" ;;
     print answer ;;
     ret (Some answer))
    (fun e => print ("ERROR: " ++ exn_str e) ;; ret None) st = (r, st') ->
  match r with
  | Ok (Some a) =>
      exists docs p m,
        prompt_format prompt [("context", ImprovedRagDebug.format_docs docs);
                              ("question", question)] = Ok p
        /\ trace st'
           = (trace st ++ [Called (retriever_invoke rb question) (Ok docs);
                           Called (llm_invoke llm p) (Ok m);
                           Printed "SUCCESS! Generated answer:";
                           Printed a])%list
        /\ a = content m
  | Ok None =>
      exists e,
        trace st'
        = (trace st ++ [Called (retriever_invoke rb question) (Raise e);
                        Printed ("ERROR: " ++ exn_str e)])%list
        \/ (exists docs,
               prompt_format prompt [("context", ImprovedRagDebug.format_docs docs);
                                     ("question", question)] = Raise e
               /\ trace st'
                  = (trace st ++ [Called (retriever_invoke rb question) (Ok docs);
                                  Printed ("ERROR: " ++ exn_str e)])%list)
        \/ (exists docs p,
               prompt_format prompt [("context", ImprovedRagDebug.format_docs docs);
                                     ("question", question)] = Ok p
               /\ trace st'
                  = (trace st ++ [Called (retriever_invoke rb question) (Ok docs);
                                  Called (llm_invoke llm p) (Raise e);
                                  Printed ("ERROR: " ++ exn_str e)])%list)
  | Raise _ => False
  end.
Proof.
  unfold ImprovedRagDebug.rag_chain. run_monad. cbn [world trace].
  destruct (respond X _ (retriever_invoke rb question) (world st)) as [[docs|e] w1];
    cbn [world trace].
  - destruct (prompt_format prompt _) as [p|e] eqn:F; cbn [world trace].
    + destruct (respond X _ (llm_invoke llm p) w1) as [[m|e] w2]; cbn [world trace];
        intro E; apply pair_equal_spec in E as [<- <-]; cbn [trace].
      * exists docs, p, m. split; [exact F|]. split; [|reflexivity].
        now rewrite <- !app_assoc.
      * exists e. right. right. exists docs, p. split; [exact F|].
        now rewrite <- !app_assoc.
    + intro E; apply pair_equal_spec in E as [<- <-]; cbn [trace].
      exists e. right. left. exists docs. split; [exact F|]. now rewrite <- !app_assoc.
  - intro E; apply pair_equal_spec in E as [<- <-]; cbn [trace].
    exists e. left. now rewrite <- !app_assoc.
Qed.

(** X4: what [debug_rag_chain] returns tells how the chain went.  It returns
    an answer exactly after the chain succeeded: the answer is the text of
    the model's reply to the prompt filled with the question and with the
    documents the chain's retriever returned for it, and it is the last line
    printed, under the SUCCESS line.  It returns None after a failure in the
    chain: the chain's retriever, the filling of the prompt or the model
    raised, nothing else was done after that, and the last line printed is
    ERROR followed by the text of that very exception. *)
Theorem debug_rag_chain_result :
  forall (X : Externals) (question : string) (vectordb : VectorStore (handles X))
         (llm : LLM (handles X)) (prompt : PromptTemplate) (st st' : State X)
         (result : option string),
    ImprovedRagDebug.debug_rag_chain X question vectordb llm prompt st = (Ok result, st') ->
    match result with
    | Some a =>
        exists evs rb docs p m,
          prompt_format prompt [("context", ImprovedRagDebug.format_docs docs);
                                ("question", question)] = Ok p
          /\ trace st'
             = (evs ++ [Called (retriever_invoke rb question) (Ok docs);
                        Called (llm_invoke llm p) (Ok m);
                        Printed "SUCCESS! Generated answer:";
                        Printed a])%list
          /\ a = content m
    | None =>
        exists evs rb e,
          trace st'
          = (evs ++ [Called (retriever_invoke rb question) (Raise e);
                     Printed ("ERROR: " ++ exn_str e)])%list
          \/ (exists docs,
                 prompt_format prompt [("context", ImprovedRagDebug.format_docs docs);
                                       ("question", question)] = Raise e
                 /\ trace st'
                    = (evs ++ [Called (retriever_invoke rb question) (Ok docs);
                               Printed ("ERROR: " ++ exn_str e)])%list)
          \/ (exists docs p,
                 prompt_format prompt [("context", ImprovedRagDebug.format_docs docs);
                                       ("question", question)] = Ok p
                 /\ trace st'
                    = (evs ++ [Called (retriever_invoke rb question) (Ok docs);
                               Called (llm_invoke llm p) (Raise e);
                               Printed ("ERROR: " ++ exn_str e)])%list)
    end.
Proof.
  intros X question vectordb llm prompt st st' result H.
  unfold ImprovedRagDebug.debug_rag_chain in H.
  do 19 (let B := fresh "B" in bind_inv H B).
  apply answer_result in H. destruct result as [reply|].
  - destruct H as (docs & p & m & F & T & C).
    eexists. eexists. exists docs, p, m. split; [exact F|]. split; [exact T|exact C].
  - destruct H as (e & H). eexists. eexists. exists e. exact H.
Qed.

Lemma debug_rag_chain_result_witness :
  Toy.debug_run true [Toy.page] true 4
  = (Ok (Some Toy.answer), snd (Toy.debug_run true [Toy.page] true 4))
  /\ exists (evs : list (Event Toy.toy_handles)) (rb : Retriever Toy.toy_handles) docs p m,
      prompt_format ImprovedRagDebug.create_improved_prompt
                    [("context", ImprovedRagDebug.format_docs docs);
                     ("question", "What is LoRA?")] = Ok p
      /\ trace (snd (Toy.debug_run true [Toy.page] true 4))
         = (evs ++ [Called (@retriever_invoke Toy.toy_handles rb "What is LoRA?") (Ok docs);
                    Called (@llm_invoke Toy.toy_handles tt p) (Ok m);
                    Printed "SUCCESS! Generated answer:";
                    Printed Toy.answer])%list
      /\ Toy.answer = content m.
Proof.
  split.
  - vm_compute. reflexivity.
  - apply (debug_rag_chain_result
             Toy.healthy "What is LoRA?" [Toy.page] tt
             ImprovedRagDebug.create_improved_prompt (Toy.start Toy.healthy tt)
             (snd (Toy.debug_run true [Toy.page] true 4)) (Some Toy.answer)).
    vm_compute. reflexivity.
Defined.

(** The other outcome, where the model refuses the key: None, and the error
    line carries the text of the exception the model call raised. *)
Lemma debug_rag_chain_result_on_failure :
  fst (ImprovedRagDebug.debug_rag_chain
         Toy.late_key "What is LoRA?" [Toy.page] tt
         ImprovedRagDebug.create_improved_prompt (Toy.start Toy.late_key tt)) = Ok None
  /\ last (output (trace (snd (ImprovedRagDebug.debug_rag_chain
                                 Toy.late_key "What is LoRA?" [Toy.page] tt
                                 ImprovedRagDebug.create_improved_prompt
                                 (Toy.start Toy.late_key tt))))) ""
     = "ERROR: Invalid API Key".
Proof. vm_compute. split; reflexivity. Qed.

(** ** One question in fix_rag_chain.py *)

(** X5: one turn of the question loop of fix_rag_chain.py, with the chain
    that [fix_rag_chain] builds, announces the question and ends with the
    closing rule; in between it either counts the documents of a fresh k=5
    retriever, invokes the chain and prints the model's reply to the prompt
    filled with the question and the documents the chain's retriever
    returned, or it stops at the first call that raised and prints that
    exception's text as the error, with no answer line. *)
Theorem fix_question_answer_or_error :
  forall (X : Externals) (retriever : Retriever (handles X)) (llm : LLM (handles X))
         (vdb : VectorStore (handles X)) (question : string) (st : State X),
  exists evs,
    fst (FixRagChain.test_question X (FixRagChain.fixed_rag_chain X retriever llm)
                                   vdb question st) = Ok tt
    /\ trace (snd (FixRagChain.test_question X (FixRagChain.fixed_rag_chain X retriever llm)
                                             vdb question st))
       = (trace st ++ [Printed (nl ++ "❓ Question: " ++ question); Printed (str_mul "-" 40)]
                   ++ evs ++ [Printed (str_mul "-" 40)])%list
    /\ ((exists r docs used m,
            evs = [Called (as_retriever vdb [("search_kwargs", VDict [("k", VInt 5)])]) (Ok r);
                   Called (get_relevant_documents r question) (Ok docs);
                   Printed ("📄 Retrieved " ++ str_of_nat (List.length docs) ++ " documents");
                   Called (retriever_invoke retriever question) (Ok used);
                   Called (llm_invoke llm
                             (fixed_prompt_text (FixRagChain.format_docs used) question))
                          (Ok m);
                   Printed ("💡 Answer: " ++ content m)])
        \/ (exists before failed e,
               evs = (before ++ [failed; Printed ("❌ Error: " ++ exn_str e)])%list
               /\ failed_call e failed
               /\ count_printed_with "💡 Answer: " before = 0)).
Proof.
  intros X retriever llm vdb question st.
  unfold FixRagChain.test_question. rewrite fixed_chain_is_rag_chain.
  unfold ImprovedRagDebug.rag_chain. run_monad. cbn [world trace].
  destruct (respond X _ (as_retriever vdb _) (world st)) as [[r|e] w1]; cbn [world trace].
  - destruct (respond X _ (get_relevant_documents r question) w1) as [[docs|e] w2];
      cbn [world trace].
    + destruct (respond X _ (retriever_invoke retriever question) w2) as [[used|e] w3];
        rewrite ?fixed_prompt_filled; cbn [world trace].
      * destruct (respond X _ (llm_invoke llm _) w3) as [[m|e] w4]; cbn [world trace snd fst].
        -- exists [Called (as_retriever vdb [("search_kwargs", VDict [("k", VInt 5)])]) (Ok r);
                   Called (get_relevant_documents r question) (Ok docs);
                   Printed ("📄 Retrieved " ++ str_of_nat (List.length docs) ++ " documents");
                   Called (retriever_invoke retriever question) (Ok used);
                   Called (llm_invoke llm
                             (fixed_prompt_text (FixRagChain.format_docs used) question))
                          (Ok m);
                   Printed ("💡 Answer: " ++ content m)].
           split; [reflexivity|]. split; [now rewrite <- !app_assoc|].
           left. now exists r, docs, used, m.
        -- exists ([Called (as_retriever vdb [("search_kwargs", VDict [("k", VInt 5)])]) (Ok r);
                    Called (get_relevant_documents r question) (Ok docs);
                    Printed ("📄 Retrieved " ++ str_of_nat (List.length docs) ++ " documents");
                    Called (retriever_invoke retriever question) (Ok used)]
                   ++ [Called (llm_invoke llm
                                 (fixed_prompt_text (FixRagChain.format_docs used) question))
                              (Raise e);
                       Printed ("❌ Error: " ++ exn_str e)])%list.
           split; [reflexivity|]. split; [now rewrite <- !app_assoc|].
           right. eexists. eexists. exists e.
           split; [reflexivity|]. split; [now repeat eexists|reflexivity].
      * cbn [snd fst].
        exists ([Called (as_retriever vdb [("search_kwargs", VDict [("k", VInt 5)])]) (Ok r);
                 Called (get_relevant_documents r question) (Ok docs);
                 Printed ("📄 Retrieved " ++ str_of_nat (List.length docs) ++ " documents")]
                ++ [Called (retriever_invoke retriever question) (Raise e);
                    Printed ("❌ Error: " ++ exn_str e)])%list.
        split; [reflexivity|]. split; [now rewrite <- !app_assoc|].
        right. eexists. eexists. exists e.
        split; [reflexivity|]. split; [now repeat eexists|reflexivity].
    + cbn [snd fst].
      exists ([Called (as_retriever vdb [("search_kwargs", VDict [("k", VInt 5)])]) (Ok r)]
              ++ [Called (get_relevant_documents r question) (Raise e);
                  Printed ("❌ Error: " ++ exn_str e)])%list.
      split; [reflexivity|]. split; [now rewrite <- !app_assoc|].
      right. eexists. eexists. exists e.
      split; [reflexivity|]. split; [now repeat eexists|reflexivity].
  - cbn [snd fst].
    exists ([] ++ [Called (as_retriever vdb [("search_kwargs", VDict [("k", VInt 5)])]) (Raise e);
                   Printed ("❌ Error: " ++ exn_str e)])%list.
    split; [reflexivity|]. split; [now rewrite <- !app_assoc|].
    right. eexists. eexists. exists e.
    split; [reflexivity|]. split; [now repeat eexists|reflexivity].
Qed.

(** ** The whole test of fix_rag_chain.py *)

Lemma fix_loop_reports_each_question (X : Externals) (retriever : Retriever (handles X))
      (llm : LLM (handles X)) (vdb : VectorStore (handles X))
      (questions : list string) (st : State X) :
  fst (for_each questions
                (FixRagChain.test_question X (FixRagChain.fixed_rag_chain X retriever llm) vdb)
                st) = Ok tt
  /\ exists reports,
      List.length reports = List.length questions
      /\ trace (snd (for_each questions
                       (FixRagChain.test_question
                          X (FixRagChain.fixed_rag_chain X retriever llm) vdb)
                       st))
         = (trace st ++ question_blocks questions reports)%list
      /\ Forall one_report reports.
Proof.
  revert st. induction questions as [|q qs IH]; intro st.
  - split; [reflexivity|]. exists []. cbn. rewrite app_nil_r. now repeat split.
  - rewrite for_each_cons.
    destruct (fix_question_never_raises X (FixRagChain.fixed_rag_chain X retriever llm) vdb q st)
      as ([] & R).
    destruct (fix_question_reported X retriever llm vdb q st) as (evs & T & F & C).
    destruct (FixRagChain.test_question X _ vdb q st) as [[[]|e] st1];
      cbn [fst snd] in *; [|discriminate].
    destruct (IH st1) as (R' & reports & L & T' & G).
    split; [exact R'|].
    exists (evs :: reports). split; [cbn; now rewrite L|]. split.
    + rewrite T', T. cbn [question_blocks]. rewrite <- !app_assoc. reflexivity.
    + constructor; [split; [exact F|exact C]|exact G].
Qed.

(** X6: once [fix_rag_chain] has returned, [test_fixed_rag] always returns
    normally, whatever retrieval and generation do: after its heading come
    the three test questions in order, each announced once and followed by
    its own report, and each report holds exactly one line that is an answer
    or an error. *)
Theorem test_fixed_rag_reports_every_question :
  forall (X : Externals) (st st1 : State X) (chain : Runnable X string string)
         (vdb : VectorStore (handles X)),
    FixRagChain.fix_rag_chain X st = (Ok (chain, vdb), st1) ->
    fst (FixRagChain.test_fixed_rag X st) = Ok tt
    /\ exists report1 report2 report3,
        trace (snd (FixRagChain.test_fixed_rag X st))
        = (trace st1
           ++ Printed (nl ++ "🧪 Testing Fixed RAG Chain...")
           :: Printed (str_mul "=" 60)
           :: Printed (nl ++ "❓ Question: can you tell me how Reward Modeling works?")
           :: report1
           ++ Printed (nl ++ "❓ Question: What is LoRA?")
           :: report2
           ++ Printed (nl ++ "❓ Question: What are the main findings in the Llama 2 paper?")
           :: report3)%list
        /\ one_report report1 /\ one_report report2 /\ one_report report3.
Proof.
  intros X st st1 chain vdb E.
  destruct (fix_rag_chain_returns X _ _ _ _ E) as (r & l & ->).
  unfold FixRagChain.test_fixed_rag. rewrite (bind_ok X _ _ _ _ _ E).
  cbv beta iota.
  rewrite (bind_ok X _ _ _ _ _ (print_run X _ st1)).
  rewrite (bind_ok X _ _ _ _ _ (print_run X _ _)).
  match goal with
  | |- context [for_each _ _ ?s] =>
      destruct (fix_loop_reports_each_question X r l vdb FixRagChain.test_questions s)
        as (R & reports & L & T & G)
  end.
  split; [exact R|].
  destruct reports as [|r1 [|r2 [|r3 [|r4 rest]]]]; try discriminate L.
  exists r1, r2, r3.
  apply Forall_cons_iff in G as [G1 G]. apply Forall_cons_iff in G as [G2 G].
  apply Forall_cons_iff in G as [G3 _].
  split; [|split; [exact G1|split; [exact G2|exact G3]]].
  rewrite T. cbn [trace question_blocks FixRagChain.test_questions].
  rewrite <- !app_assoc, app_nil_r. reflexivity.
Qed.

Lemma test_fixed_rag_reports_every_question_witness :
  FixRagChain.fix_rag_chain Toy.offline (Toy.start Toy.offline tt)
  = (Ok (FixRagChain.fixed_rag_chain Toy.offline [Toy.page] tt, [Toy.page]),
     snd (FixRagChain.fix_rag_chain Toy.offline (Toy.start Toy.offline tt)))
  /\ fst (FixRagChain.test_fixed_rag Toy.offline (Toy.start Toy.offline tt)) = Ok tt
  /\ exists report1 report2 report3,
      trace (snd (FixRagChain.test_fixed_rag Toy.offline (Toy.start Toy.offline tt)))
      = (trace (snd (FixRagChain.fix_rag_chain Toy.offline (Toy.start Toy.offline tt)))
         ++ Printed (nl ++ "🧪 Testing Fixed RAG Chain...")
         :: Printed (str_mul "=" 60)
         :: Printed (nl ++ "❓ Question: can you tell me how Reward Modeling works?")
         :: report1
         ++ Printed (nl ++ "❓ Question: What is LoRA?")
         :: report2
         ++ Printed (nl ++ "❓ Question: What are the main findings in the Llama 2 paper?")
         :: report3)%list
      /\ one_report report1 /\ one_report report2 /\ one_report report3.
Proof.
  split.
  - vm_compute. reflexivity.
  - apply (test_fixed_rag_reports_every_question
             Toy.offline (Toy.start Toy.offline tt)
             (snd (FixRagChain.fix_rag_chain Toy.offline (Toy.start Toy.offline tt)))
             (FixRagChain.fixed_rag_chain Toy.offline [Toy.page] tt) [Toy.page]).
    vm_compute. reflexivity.
Defined.

(** ** The formatted context *)

Lemma length_append (a b : string) :
  String.length (a ++ b) = String.length a + String.length b.
Proof. induction a as [|c a IH]; simpl; [reflexivity | now rewrite IH]. Qed.

Lemma format_docs_cons (d d' : Document) (rest : list Document) :
  ImprovedRagDebug.format_docs (d :: d' :: rest)
  = page_content d ++ (nl ++ nl) ++ ImprovedRagDebug.format_docs (d' :: rest).
Proof. reflexivity. Qed.

(** X7: the context that [format_docs] builds (the same function in both
    scripts) is as long as the page contents together plus two characters
    between each two neighbours, and formatting a list that is two non-empty
    lists one after the other gives the two formatted contexts with one
    blank line between them. *)
Theorem format_docs_length_and_append :
  (forall docs : list Document,
      String.length (FixRagChain.format_docs docs)
      = total_length docs + 2 * (List.length docs - 1)
      /\ String.length (ImprovedRagDebug.format_docs docs)
         = total_length docs + 2 * (List.length docs - 1))
  /\ (forall (d1 : Document) (ds1 : list Document) (d2 : Document) (ds2 : list Document),
         FixRagChain.format_docs ((d1 :: ds1) ++ d2 :: ds2)
         = FixRagChain.format_docs (d1 :: ds1) ++ (nl ++ nl)
                                   ++ FixRagChain.format_docs (d2 :: ds2)
         /\ ImprovedRagDebug.format_docs ((d1 :: ds1) ++ d2 :: ds2)
            = ImprovedRagDebug.format_docs (d1 :: ds1) ++ (nl ++ nl)
                                           ++ ImprovedRagDebug.format_docs (d2 :: ds2)).
Proof.
  assert (L : forall docs, String.length (ImprovedRagDebug.format_docs docs)
                           = total_length docs + 2 * (List.length docs - 1)).
  { intro docs. induction docs as [|d rest IH]; [reflexivity|].
    destruct rest as [|d' rest].
    - unfold total_length. cbn. lia.
    - rewrite format_docs_cons, !length_append, IH.
      unfold total_length. cbn [map list_sum List.length]. cbn. lia. }
  assert (A : forall d1 ds1 d2 ds2,
             ImprovedRagDebug.format_docs ((d1 :: ds1) ++ d2 :: ds2)
             = ImprovedRagDebug.format_docs (d1 :: ds1) ++ (nl ++ nl)
                                            ++ ImprovedRagDebug.format_docs (d2 :: ds2)).
  { intros d1 ds1 d2 ds2. revert d1. induction ds1 as [|d ds1 IH]; intro d1.
    - reflexivity.
    - change ((d1 :: d :: ds1) ++ d2 :: ds2)%list with (d1 :: d :: (ds1 ++ d2 :: ds2))%list.
      rewrite !format_docs_cons.
      change (d :: (ds1 ++ d2 :: ds2))%list with ((d :: ds1) ++ d2 :: ds2)%list.
      rewrite IH, !append_assoc. reflexivity. }
  split.
  - intro docs. split; apply L.
  - intros d1 ds1 d2 ds2. split; apply A.
Qed.

(** ** What setup hands over *)

Ltac in_list := cbn [In]; repeat first [left; reflexivity | right].

(** X8: when [fix_rag_chain] returns, the vector store it returns was built
    from exactly the chunks the splitter returned for exactly the documents
    loaded from notebook/data under the current directory, the two counts it
    printed are the sizes of those two lists, and the chain it returns
    retrieves from that store with similarity search, k=5, and generates
    with the model client it built. *)
Theorem fix_rag_chain_indexes_what_it_loaded :
  forall (X : Externals) (st st1 : State X) (chain : Runnable X string string)
         (vdb : VectorStore (handles X)),
    FixRagChain.fix_rag_chain X st = (Ok (chain, vdb), st1) ->
    exists new llm splitter cwd loader docs chunks embedding retriever,
      trace st1 = (trace st ++ new)%list
      /\ In (Called (ChatGroq [("model", VStr "llama3-8b-8192"); ("temperature", VFloat "0.1")])
                    (Ok llm)) new
      /\ In (Called (RecursiveCharacterTextSplitter
                       [("chunk_size", VInt 1000); ("chunk_overlap", VInt 200);
                        ("length_function", VRef "len")]) (Ok splitter)) new
      /\ In (Called getcwd (Ok cwd)) new
      /\ In (Called (DirectoryLoader (path_join (path_join cwd "notebook") "data")
                       [("glob", VStr "**/*.pdf"); ("loader_cls", VRef "PyPDFLoader")])
                    (Ok loader)) new
      /\ In (Called (load loader) (Ok docs)) new
      /\ In (Printed ("   Loaded " ++ str_of_nat (List.length docs) ++ " documents")) new
      /\ In (Called (split_documents splitter docs) (Ok chunks)) new
      /\ In (Printed ("   Split into " ++ str_of_nat (List.length chunks) ++ " chunks")) new
      /\ In (Called (GoogleGenerativeAIEmbeddings [("model", VStr "models/embedding-001")])
                    (Ok embedding)) new
      /\ In (Called (FAISS_from_documents chunks embedding) (Ok vdb)) new
      /\ In (Called (as_retriever vdb similarity_k5) (Ok retriever)) new
      /\ chain = FixRagChain.fixed_rag_chain X retriever llm.
Proof.
  intros X st st1 chain vdb.
  unfold FixRagChain.fix_rag_chain. cbv [bind print call ret]. cbn [world trace].
  destruct (respond X _ (ChatGroq _) (world st)) as [[llm|e] w1];
    cbn [world trace]; [|discriminate].
  destruct (respond X _ (RecursiveCharacterTextSplitter _) w1) as [[splitter|e] w2];
    cbn [world trace]; [|discriminate].
  destruct (respond X _ getcwd w2) as [[cwd|e] w3]; cbn [world trace]; [|discriminate].
  destruct (respond X _ (DirectoryLoader _ _) w3) as [[loader|e] w4];
    cbn [world trace]; [|discriminate].
  destruct (respond X _ (load loader) w4) as [[docs|e] w5];
    cbn [world trace]; [|discriminate].
  destruct (respond X _ (split_documents splitter docs) w5) as [[chunks|e] w6];
    cbn [world trace]; [|discriminate].
  destruct (respond X _ (GoogleGenerativeAIEmbeddings _) w6) as [[embedding|e] w7];
    cbn [world trace]; [|discriminate].
  destruct (respond X _ (FAISS_from_documents chunks embedding) w7) as [[v|e] w8];
    cbn [world trace]; [|discriminate].
  destruct (respond X _ (as_retriever v _) w8) as [[retriever|e] w9];
    cbn [world trace]; [|discriminate].
  intro E. apply pair_equal_spec in E as [E <-].
  assert (Ec : FixRagChain.fixed_rag_chain X retriever llm = chain) by congruence.
  assert (Ev : v = vdb) by congruence. subst v. clear E.
  eexists. exists llm, splitter, cwd, loader, docs, chunks, embedding, retriever.
  split; [cbn [trace]; rewrite <- !app_assoc; cbn [app]; reflexivity|].
  repeat (split; [in_list|]). now symmetry.
Qed.

Lemma fix_rag_chain_indexes_what_it_loaded_witness :
  FixRagChain.fix_rag_chain Toy.healthy (Toy.start Toy.healthy tt)
  = (Ok (FixRagChain.fixed_rag_chain Toy.healthy [Toy.page] tt, [Toy.page]),
     snd (FixRagChain.fix_rag_chain Toy.healthy (Toy.start Toy.healthy tt)))
  /\ exists new retriever llm,
      trace (snd (FixRagChain.fix_rag_chain Toy.healthy (Toy.start Toy.healthy tt)))
      = ([] ++ new)%list
      /\ FixRagChain.fixed_rag_chain Toy.healthy [Toy.page] tt
         = FixRagChain.fixed_rag_chain Toy.healthy retriever llm.
Proof.
  split.
  - vm_compute. reflexivity.
  - destruct (fix_rag_chain_indexes_what_it_loaded
                Toy.healthy (Toy.start Toy.healthy tt)
                (snd (FixRagChain.fix_rag_chain Toy.healthy (Toy.start Toy.healthy tt)))
                (FixRagChain.fixed_rag_chain Toy.healthy [Toy.page] tt) [Toy.page])
      as (new & llm & splitter & cwd & loader & docs & chunks & embedding & retriever
          & T & _ & _ & _ & _ & _ & _ & _ & _ & _ & _ & _ & C).
    + vm_compute. reflexivity.
    + exists new, retriever, llm. split; [exact T | exact C].
Defined.

(** X9: when [setup_components] returns, the chunks it returns are exactly
    what the splitter returned for exactly the documents loaded from
    notebook/data under the current directory, the vector store it returns
    was built from those chunks with the embedding model it returns, the two
    counts it printed are the sizes of the two lists, and the model client it
    returns is the one it built. *)
Theorem setup_components_indexes_what_it_loaded :
  forall (X : Externals) (st st1 : State X) (llm : LLM (handles X))
         (embedding : Embeddings (handles X)) (vdb : VectorStore (handles X))
         (split_docs : list Document),
    ImprovedRagDebug.setup_components X st = (Ok (llm, embedding, vdb, split_docs), st1) ->
    exists new cwd loader docs splitter,
      trace st1 = (trace st ++ new)%list
      /\ In (Called (ChatGroq [("model", VStr "llama3-8b-8192"); ("temperature", VFloat "0.1")])
                    (Ok llm)) new
      /\ In (Called (GoogleGenerativeAIEmbeddings [("model", VStr "models/embedding-001")])
                    (Ok embedding)) new
      /\ In (Called getcwd (Ok cwd)) new
      /\ In (Called (DirectoryLoader (path_join (path_join cwd "notebook") "data")
                       [("glob", VStr "**/*.pdf"); ("loader_cls", VRef "PyPDFLoader")])
                    (Ok loader)) new
      /\ In (Called (load loader) (Ok docs)) new
      /\ In (Printed ("Loaded " ++ str_of_nat (List.length docs) ++ " documents")) new
      /\ In (Called (RecursiveCharacterTextSplitter
                       [("chunk_size", VInt 1000); ("chunk_overlap", VInt 200);
                        ("length_function", VRef "len");
                        ("separators",
                         VList [VStr (nl ++ nl); VStr nl; VStr ". "; VStr " "; VStr ""])])
                    (Ok splitter)) new
      /\ In (Called (split_documents splitter docs) (Ok split_docs)) new
      /\ In (Printed ("Split into " ++ str_of_nat (List.length split_docs) ++ " chunks")) new
      /\ In (Called (FAISS_from_documents split_docs embedding) (Ok vdb)) new.
Proof.
  intros X st st1 llm embedding vdb split_docs.
  unfold ImprovedRagDebug.setup_components. cbv [bind print call ret]. cbn [world trace].
  destruct (respond X _ (ChatGroq _) (world st)) as [[l|e] w1];
    cbn [world trace]; [|discriminate].
  destruct (respond X _ (GoogleGenerativeAIEmbeddings _) w1) as [[em|e] w2];
    cbn [world trace]; [|discriminate].
  destruct (respond X _ getcwd w2) as [[cwd|e] w3]; cbn [world trace]; [|discriminate].
  destruct (respond X _ (DirectoryLoader _ _) w3) as [[loader|e] w4];
    cbn [world trace]; [|discriminate].
  destruct (respond X _ (load loader) w4) as [[docs|e] w5];
    cbn [world trace]; [|discriminate].
  destruct (respond X _ (RecursiveCharacterTextSplitter _) w5) as [[splitter|e] w6];
    cbn [world trace]; [|discriminate].
  destruct (respond X _ (split_documents splitter docs) w6) as [[chunks|e] w7];
    cbn [world trace]; [|discriminate].
  destruct (respond X _ (FAISS_from_documents chunks em) w7) as [[v|e] w8];
    cbn [world trace]; [|discriminate].
  intro E. apply pair_equal_spec in E as [E <-].
  assert (l = llm /\ em = embedding /\ v = vdb /\ chunks = split_docs) as (-> & -> & -> & ->)
    by (repeat split; congruence).
  clear E.
  eexists. exists cwd, loader, docs, splitter.
  split; [cbn [trace]; rewrite <- !app_assoc; cbn [app]; reflexivity|].
  repeat (split; [in_list|]). in_list.
Qed.

Lemma setup_components_indexes_what_it_loaded_witness :
  ImprovedRagDebug.setup_components Toy.healthy (Toy.start Toy.healthy tt)
  = (Ok (tt, tt, [Toy.page], [Toy.page]),
     snd (ImprovedRagDebug.setup_components Toy.healthy (Toy.start Toy.healthy tt)))
  /\ exists new,
      trace (snd (ImprovedRagDebug.setup_components Toy.healthy (Toy.start Toy.healthy tt)))
      = ([] ++ new)%list
      /\ In (Printed "Split into 1 chunks") new.
Proof.
  split.
  - vm_compute. reflexivity.
  - destruct (setup_components_indexes_what_it_loaded
                Toy.healthy (Toy.start Toy.healthy tt)
                (snd (ImprovedRagDebug.setup_components Toy.healthy (Toy.start Toy.healthy tt)))
                tt tt [Toy.page] [Toy.page])
      as (new & cwd & loader & docs & splitter & T & _ & _ & _ & _ & _ & _ & _ & _ & P & _).
    + vm_compute. reflexivity.
    + exists new. split; [exact T | exact P].
Defined.

(** ** The prompt templates *)

(** X10: both prompt templates declare and use exactly the variables
    context and question: filled with both, in either order, they give the
    prompt, whatever the two texts are; with one of them missing the prompt
    cannot be assembled and a KeyError is raised; and every assembled prompt
    carries, in quotes, the sentence the model is told to answer with when
    the context is not enough. *)
Theorem prompts_need_context_and_question :
  forall context question : string,
    (prompt_format FixRagChain.prompt [("question", question); ("context", context)]
     = prompt_format FixRagChain.prompt [("context", context); ("question", question)]
     /\ (exists e, prompt_format FixRagChain.prompt [("context", context)] = Raise e
                   /\ exn_class e = "KeyError")
     /\ (exists e, prompt_format FixRagChain.prompt [("question", question)] = Raise e
                   /\ exn_class e = "KeyError")
     /\ (exists p,
            prompt_format FixRagChain.prompt [("context", context); ("question", question)]
            = Ok p
            /\ contains p (dq ++ "I do not have enough information to answer this question"
                              ++ dq)))
    /\ (prompt_format ImprovedRagDebug.create_improved_prompt
                      [("question", question); ("context", context)]
        = prompt_format ImprovedRagDebug.create_improved_prompt
                        [("context", context); ("question", question)]
        /\ (exists e, prompt_format ImprovedRagDebug.create_improved_prompt
                                    [("context", context)] = Raise e
                      /\ exn_class e = "KeyError")
        /\ (exists e, prompt_format ImprovedRagDebug.create_improved_prompt
                                    [("question", question)] = Raise e
                      /\ exn_class e = "KeyError")
        /\ (exists p,
               prompt_format ImprovedRagDebug.create_improved_prompt
                             [("context", context); ("question", question)] = Ok p
               /\ contains p (dq ++ "I do not have enough information to answer this question accurately."
                                 ++ dq))).
Proof.
  intros context question. split.
  - split; [vm_compute; reflexivity|].
    split; [eexists; split; vm_compute; reflexivity|].
    split; [eexists; split; vm_compute; reflexivity|].
    exists (fixed_prompt_text context question). split; [apply fixed_prompt_filled|].
    exists (nl ++ "Answer the question based on the context provided below." ++ nl ++
            "If the context does not contain sufficient information, respond with:" ++ nl),
           (nl ++ nl ++ slots_text context question).
    reflexivity.
  - split; [vm_compute; reflexivity|].
    split; [eexists; split; vm_compute; reflexivity|].
    split; [eexists; split; vm_compute; reflexivity|].
    exists (improved_prompt_text context question). split; [apply improved_prompt_filled|].
    exists (nl ++ "You are a helpful AI assistant. Answer the question based on the context provided below." ++ nl ++
            "If the context does not contain sufficient information to answer the question accurately, respond with:" ++ nl),
           (nl ++ nl ++
            "Guidelines:" ++ nl ++
            "- Use only the information provided in the context" ++ nl ++
            "- Be specific and detailed in your response" ++ nl ++
            "- If the context contains relevant data, cite it appropriately" ++ nl ++
            "- If the question is not addressed in the context, say so clearly" ++ nl ++
            "- Provide a comprehensive answer based on the available context" ++ nl ++
            nl ++ slots_text context question).
    reflexivity.
Qed.

(** ** The data directory *)

Lemma ends_with_slash_skip (x y : ascii) (s : string) :
  ends_with_slash (String x (String y s)) = ends_with_slash (String y s).
Proof. reflexivity. Qed.

Lemma ends_with_slash_append (a : string) (c : ascii) (b : string) :
  ends_with_slash (a ++ String c b) = ends_with_slash (String c b).
Proof.
  induction a as [|x a IH]; [reflexivity|].
  cbn [append]. destruct a as [|y a]; cbn [append] in *.
  - apply ends_with_slash_skip.
  - now rewrite ends_with_slash_skip.
Qed.

Lemma append_is_not_empty (a : string) (c : ascii) (b : string) :
  String.eqb (a ++ String c b) "" = false.
Proof. now destruct a. Qed.

(** X11: the directory both scripts load from is notebook/data directly
    under the current directory: the path is the current directory followed
    by /notebook/data, with no second slash when the current directory is
    empty or already ends with one. *)
Theorem data_directory_is_under_cwd :
  forall cwd : string,
    path_join (path_join cwd "notebook") "data"
    = if orb (String.eqb cwd "") (ends_with_slash cwd)
      then cwd ++ "notebook/data"
      else cwd ++ "/notebook/data".
Proof.
  intro cwd. unfold path_join at 2. cbn [startswith Ascii.eqb Bool.eqb].
  destruct (orb (String.eqb cwd "") (ends_with_slash cwd)).
  - unfold path_join. cbn [startswith Ascii.eqb Bool.eqb].
    rewrite (append_is_not_empty cwd "n" "otebook").
    rewrite (ends_with_slash_append cwd "n" "otebook"). cbn.
    now rewrite append_assoc.
  - unfold path_join. cbn [startswith Ascii.eqb Bool.eqb append].
    rewrite (append_is_not_empty cwd "/" "notebook").
    rewrite (ends_with_slash_append cwd "/" "notebook"). cbn.
    now rewrite append_assoc.
Qed.

(** ** The whole test of improved_rag_debug.py *)

Section DebugLoop.

Variable X : Externals.

Lemma debug_question_only_appends (vdb : VectorStore (handles X)) (llm : LLM (handles X))
      (prompt : PromptTemplate) (question : string) :
  appends_only X (fun _ => true) (ImprovedRagDebug.test_question X vdb llm prompt question).
Proof. shape. all: unfold ImprovedRagDebug.show_document; shape. Qed.

Lemma debug_question_announced (vdb : VectorStore (handles X)) (llm : LLM (handles X))
      (prompt : PromptTemplate) (question : string) (st st' : State X) (r : Result unit) :
  ImprovedRagDebug.test_question X vdb llm prompt question st = (r, st') ->
  In (Printed ("Testing: " ++ question)) (trace st').
Proof.
  intro E.
  destruct (debug_question_only_appends vdb llm prompt question st) as (evs & T & _).
  rewrite E in T. cbn [snd] in T.
  assert (P : exists rest, evs = Printed (nl ++ str_mul "=" 60)
                                 :: Printed ("Testing: " ++ question) :: rest).
  { revert E T. unfold ImprovedRagDebug.test_question.
    rewrite (bind_ok X _ _ _ _ _ (print_run X _ st)).
    rewrite (bind_ok X _ _ _ _ _ (print_run X _ _)).
    rewrite (bind_ok X _ _ _ _ _ (print_run X _ _)).
    cbn [world trace]. intros E T.
    destruct (appends_only_inv X (fun _ => true) _ _ _ _
                (appends_only_bind X _ _ _
                   (ltac:(shape; unfold ImprovedRagDebug.show_document; shape)
                     : appends_only X (fun _ => true)
                         (ImprovedRagDebug.debug_rag_chain X question vdb llm prompt))
                   (fun _ => appends_only_ret X _ tt)) E)
      as (rest & T' & _).
    cbn [trace] in T'. rewrite T, <- !app_assoc in T'. apply app_inv_head in T'.
    exists (Printed (str_mul "=" 60) :: rest). exact T'. }
  destruct P as (rest & ->). rewrite T. apply in_or_app. right. right. now left.
Qed.

Lemma debug_loop_announces (vdb : VectorStore (handles X)) (llm : LLM (handles X))
      (prompt : PromptTemplate) (questions : list string) (st st' : State X) :
  for_each questions (ImprovedRagDebug.test_question X vdb llm prompt) st = (Ok tt, st') ->
  forall q, In q questions -> In (Printed ("Testing: " ++ q)) (trace st').
Proof.
  revert st. induction questions as [|q0 qs IH]; intros st E q [].
  - subst q0. cbn [for_each] in E. apply bind_ok_inv in E as (a & s1 & B & E).
    apply debug_question_announced in B.
    destruct (appends_only_for_each X (fun _ => true) qs _
                (debug_question_only_appends vdb llm prompt) s1) as (evs & T & _).
    rewrite E in T. cbn [snd] in T. rewrite T. apply in_or_app. now left.
  - cbn [for_each] in E. apply bind_ok_inv in E as (a & s1 & B & E).
    now apply (IH s1).
Qed.

End DebugLoop.

(** X12: improved_rag_debug.py returns normally only after it has announced
    every one of its five test questions; with the two stopping properties,
    a run that announces fewer has ended in an exception of setup or of a
    direct retrieval. *)
Theorem debug_script_returns_only_after_every_question :
  forall (X : Externals) (st st' : State X),
    ImprovedRagDebug.test_different_questions X st = (Ok tt, st') ->
    forall q, In q ImprovedRagDebug.test_questions ->
              In (Printed ("Testing: " ++ q)) (trace st').
Proof.
  intros X st st' E. unfold ImprovedRagDebug.test_different_questions in E.
  apply bind_ok_inv in E as (a & s1 & _ & E).
  apply bind_ok_inv in E as ([[[llm emb] vdb] docs] & s2 & _ & E).
  apply bind_ok_inv in E as (a' & s3 & _ & E).
  exact (debug_loop_announces X vdb llm ImprovedRagDebug.create_improved_prompt _ _ _ E).
Qed.

Lemma debug_script_returns_only_after_every_question_witness :
  ImprovedRagDebug.test_different_questions Toy.healthy (Toy.start Toy.healthy tt)
  = (Ok tt, snd (ImprovedRagDebug.test_different_questions Toy.healthy
                   (Toy.start Toy.healthy tt)))
  /\ In (Printed (H := Toy.toy_handles) ("Testing: " ++ "What are the benchmark results?"))
        (trace (snd (ImprovedRagDebug.test_different_questions Toy.healthy
                       (Toy.start Toy.healthy tt)))).
Proof.
  split.
  - vm_compute. reflexivity.
  - apply (debug_script_returns_only_after_every_question
             Toy.healthy (Toy.start Toy.healthy tt)).
    + vm_compute. reflexivity.
    + cbn. tauto.
Defined.
